(** * Kyne / ShegerPay Python SDK: request/response mapping layer

    A shallow embedding of [src/python/kyne.py] and
    [src/python/shegerpay.py].  The two files are the same client under two
    brand names; [shegerpay.py] adds the JSON-encoded resource families.

    Python values are dynamically typed: a decoded JSON body, a payload
    dictionary and the message of an exception are all values of the type
    [value] below.  A [dict] is an association list: it keeps insertion
    order, as Python's does, and that order is the order of the form-encoded
    body.  A string is a Rocq string, each character a code point below 256;
    [upper] is Python's [str.upper] on such strings, the code points 181 and
    255 apart, whose upper-case forms lie beyond 255 (see [upper_char]);
    [startswith("FT")] after [upper] is exact on all of them, since neither
    form begins with F or T.  The session headers are looked up under the
    one spelling the source uses, "Content-Type". *)

From Stdlib Require Import ZArith List String Ascii Bool Lia.
Import ListNotations.
Local Open Scope string_scope.
Local Open Scope Z_scope.

(** ** Python values *)

Set Warnings "-register-all".

Inductive value : Type :=
| VNone
| VBool (b : bool)
| VInt (z : Z)
| VFloat (mantissa exponent : Z)
| VStr (s : string)
| VList (l : list value)
| VDict (d : list (string * value)).

Definition dict := list (string * value).

(** [d.get(k)] as an option, first binding of the key. *)
Fixpoint lookup (k : string) (d : dict) : option value :=
  match d with
  | [] => None
  | (k', v) :: d' => if String.eqb k k' then Some v else lookup k d'
  end.

(** [d.get(k, default)] *)
Definition get_default (d : dict) (k : string) (default : value) : value :=
  match lookup k d with
  | Some v => v
  | None => default
  end.

(** [d.get(k)], whose default is [None] *)
Definition get (d : dict) (k : string) : value := get_default d k VNone.

(** [d[k] = v]: an existing key keeps its place, a new one goes last. *)
Fixpoint setitem (d : dict) (k : string) (v : value) : dict :=
  match d with
  | [] => [(k, v)]
  | (k', v') :: d' =>
      if String.eqb k k' then (k, v) :: d' else (k', v') :: setitem d' k v
  end.

(** [{**d, **extra}] *)
Definition update (d extra : dict) : dict :=
  fold_left (fun acc kv => setitem acc (fst kv) (snd kv)) extra d.

Definition has_key (k : string) (d : dict) : bool :=
  match lookup k d with Some _ => true | None => false end.

(** Python truthiness, [bool(v)] *)
Definition truthy (v : value) : bool :=
  match v with
  | VNone => false
  | VBool b => b
  | VInt z => negb (z =? 0)
  | VFloat m _ => negb (m =? 0)
  | VStr s => negb (String.eqb s "")
  | VList l => match l with [] => false | _ => true end
  | VDict d => match d with [] => false | _ => true end
  end.

(** An optional string argument ([str = None]) and its truthiness. *)
Definition truthy_str (s : option string) : bool :=
  match s with
  | None => false
  | Some s => negb (String.eqb s "")
  end.

Definition opt_value (s : option string) : value :=
  match s with None => VNone | Some s => VStr s end.

(** ** Strings *)

(** What [str.upper] makes of one character: a to z and the accented
    letters 224 to 254 (247, the division sign, apart) lose 32, the sharp s
    (223) becomes "SS", the rest stays.  The micro sign (181) and the y with
    diaeresis (255) have upper-case forms beyond 255 (924 and 376), which a
    string of this file cannot hold: they are left as they are, and fall
    outside what the file models. *)
Definition upper_char (c : ascii) : string :=
  let n := nat_of_ascii c in
  if (Nat.leb 97 n && Nat.leb n 122)%bool then
    String (ascii_of_nat (n - 32)) EmptyString
  else if Nat.eqb n 223 then "SS"
  else if (Nat.leb 224 n && Nat.leb n 254 && negb (Nat.eqb n 247))%bool then
    String (ascii_of_nat (n - 32)) EmptyString
  else String c EmptyString.

(** [s.upper()] *)
Fixpoint upper (s : string) : string :=
  match s with
  | EmptyString => EmptyString
  | String c s' => upper_char c ++ upper s'
  end.

(** [s.startswith(p)] *)
Definition startswith (s p : string) : bool := String.prefix p s.

Fixpoint rev_string (s acc : string) : string :=
  match s with
  | EmptyString => acc
  | String c s' => rev_string s' (String c acc)
  end.

Fixpoint lstrip_slash (s : string) : string :=
  match s with
  | String "/" s' => lstrip_slash s'
  | _ => s
  end.

(** [s.rstrip('/')] *)
Definition rstrip_slash (s : string) : string :=
  rev_string (lstrip_slash (rev_string s "")) "".

(** ** The HTTP transport (the [requests] library, an external collaborator) *)

(** The [data=] and [json=] keyword arguments of [Session.request]: a
    payload passed as [data] goes out form-encoded, one passed as [json]
    goes out as a JSON document. *)
Inductive Body : Type :=
| FormData (data : option dict)
| JsonData (data : dict).

(** One call of [self._session.request(...)], with the session headers it is
    sent under. *)
Record HttpRequest : Type := mkRequest {
  req_method : string;
  req_url : string;
  req_headers : dict;
  req_body : Body;
  req_params : option dict;
  req_timeout : Z
}.

(** What came back: [status_code], and the outcome of [response.json()],
    [None] when the body is not a JSON document. *)
Record Response : Type := mkResponse {
  status_code : Z;
  json : option value
}.

(** The exceptions of [requests.exceptions] a round trip can end in.
    [ConnectTimeout] derives from both [ConnectionError] and [Timeout]. *)
Inductive Fault : Type :=
| ReadTimeout
| ConnectTimeout
| ConnectionFailure
| TooManyRedirects.

Definition is_Timeout (f : Fault) : bool :=
  match f with ReadTimeout | ConnectTimeout => true | _ => false end.

Definition is_ConnectionError (f : Fault) : bool :=
  match f with ConnectTimeout | ConnectionFailure => true | _ => false end.

Inductive Outcome : Type :=
| Responded (r : Response)
| Failed (f : Fault).

(** The network: the requests sent so far and the remote service, which
    answers a request knowing the ones before it. *)
Record Net : Type := mkNet {
  sent : list HttpRequest;
  remote : list HttpRequest -> HttpRequest -> Outcome
}.

(** ** Exceptions *)

(** The SDK's own hierarchy: the base class ([KyneError], [ShegerPayError])
    and its two subclasses.  The source declares no other. *)
Inductive ErrorClass : Type :=
| BaseError
| AuthenticationError
| ValidationError.

Inductive exn : Type :=
| SdkError (cls : ErrorClass) (message : value) (code : option Z)
| RequestException (f : Fault)
| JSONDecodeError
| AttributeError
| TypeError.

Inductive result (A : Type) : Type :=
| Ok (a : A)
| Raise (e : exn).
Arguments Ok {A} a.
Arguments Raise {A} e.

(** ** Computations over a mutable state that may raise *)

Definition M (S A : Type) : Type := S -> S * result A.

Definition ret {S A} (a : A) : M S A := fun s => (s, Ok a).

Definition raise {S A} (e : exn) : M S A := fun s => (s, Raise e).

Definition bind {S A B} (m : M S A) (k : A -> M S B) : M S B :=
  fun s =>
    match m s with
    | (s', Ok a) => k a s'
    | (s', Raise e) => (s', Raise e)
    end.

(** [try: m except ...: h]; the state changes made by [m] before it raised
    stay. *)
Definition try_except {S A} (m : M S A) (h : exn -> M S A) : M S A :=
  fun s =>
    match m s with
    | (s', Ok a) => (s', Ok a)
    | (s', Raise e) => h e s'
    end.

Notation "x <- m ;; k" := (bind m (fun x => k))
  (at level 61, m at next level, right associativity).
Notation "m ;;; k" := (bind m (fun _ => k))
  (at level 61, right associativity).

(** A pure step that may raise, run inside a computation. *)
Definition lift {S A} (r : result A) : M S A := fun s => (s, r).

(** ** The result records *)

Module VerificationResult.

Record t : Type := mk {
  valid : value;
  status : value;
  provider : value;
  transaction_id : value;
  amount : value;
  reason : value;
  mode : value;
  payer : value
}.

(** [data.get] exists on a dictionary only; on any other decoded body the
    attribute lookup raises. *)
Definition from_response (data : value) : result t :=
  match data with
  | VDict data =>
      Ok {| valid := get_default data "valid" (VBool false);
            status := get_default data "status" (VStr "unknown");
            provider := get data "provider";
            transaction_id := get data "transaction_id";
            amount := get data "amount";
            reason := get data "reason";
            mode := get data "mode";
            payer := get data "payer" |}
  | _ => Raise AttributeError
  end.

End VerificationResult.

Module Transaction.

Record t : Type := mk {
  id : value;
  provider : value;
  external_id : value;
  amount : value;
  status : value;
  created_at : value;
  mode : value
}.

End Transaction.

(** ** The client *)

Record Brand : Type := mkBrand {
  DEFAULT_BASE_URL : string;
  user_agent : string;
  default_merchant_name : string
}.

Record Client : Type := mkClient {
  api_key : string;
  base_url : string;
  timeout : Z;
  mode : string;
  session_headers : dict   (* self._session.headers *)
}.

(** The headers a fresh [requests.Session()] carries. *)
Definition requests_default_headers : dict :=
  [ ("User-Agent", VStr "python-requests");
    ("Accept-Encoding", VStr "gzip, deflate");
    ("Accept", VStr "*/*");
    ("Connection", VStr "keep-alive") ].

Definition form_urlencoded : string := "application/x-www-form-urlencoded".
Definition application_json : string := "application/json".

(** [base_url or self.DEFAULT_BASE_URL] *)
Definition or_default (s : option string) (default : string) : string :=
  match s with
  | Some s => if String.eqb s "" then default else s
  | None => default
  end.

(** The constructor runs against the network alone: there is no client
    yet. *)
Definition __init__ (brand : Brand) (api_key : string)
    (base_url : option string) (timeout : Z) : M Net Client :=
  if negb (truthy (VStr api_key)) then
    raise (SdkError AuthenticationError (VStr "API key is required") None)
  else if negb (startswith api_key "sk_test_" || startswith api_key "sk_live_") then
    raise (SdkError AuthenticationError
             (VStr "Invalid API key format. Must start with sk_test_ or sk_live_")
             None)
  else
    ret {| api_key := api_key;
           base_url := rstrip_slash (or_default base_url (DEFAULT_BASE_URL brand));
           timeout := timeout;
           mode := if startswith api_key "sk_test_" then "test" else "live";
           session_headers :=
             update requests_default_headers
               [ ("Authorization", VStr ("Bearer " ++ api_key));
                 ("Content-Type", VStr form_urlencoded);
                 ("User-Agent", VStr (user_agent brand)) ] |}.

(** A client in use: the object and the network it talks to. *)
Record World : Type := mkWorld {
  self : Client;
  net : Net
}.

(** [self._session.headers[k] = v] *)
Definition set_header (k : string) (v : string) : M World unit :=
  fun w =>
    let c := self w in
    (mkWorld (mkClient (api_key c) (base_url c) (timeout c) (mode c)
                (setitem (session_headers c) k (VStr v)))
       (net w),
     Ok tt).

(** [self._session.request(method=, url=, data=/json=, params=, timeout=)]:
    the request goes out under the session headers of the moment, and a
    transport failure is raised as the [requests] exception it is. *)
Definition session_request (method url : string) (body : Body)
    (params : option dict) (timeout : Z) : M World Response :=
  fun w =>
    let req := mkRequest method url (session_headers (self w)) body params timeout in
    let w' := mkWorld (self w) (mkNet (sent (net w) ++ [req]) (remote (net w))) in
    match remote (net w) (sent (net w)) req with
    | Responded r => (w', Ok r)
    | Failed f => (w', Raise (RequestException f))
    end.

(** [response.json()] *)
Definition response_json {S} (response : Response) : M S value :=
  match json response with
  | Some v => ret v
  | None => raise JSONDecodeError
  end.

(** [error.get('detail', 'Validation error')] on the decoded body *)
Definition detail_of {S} (error : value) : M S value :=
  match error with
  | VDict error => ret (get_default error "detail" (VStr "Validation error"))
  | _ => raise AttributeError
  end.

(** The status checks of [_request], the same in both files. *)
Definition check_status (response : Response) : M World value :=
  if status_code response =? 401 then
    raise (SdkError AuthenticationError (VStr "Invalid API key") (Some 401))
  else if status_code response =? 400 then
    error <- response_json response ;;
    message <- detail_of error ;;
    raise (SdkError ValidationError message (Some 400))
  else if status_code response >=? 500 then
    raise (SdkError BaseError (VStr "Server error") (Some (status_code response)))
  else
    response_json response.

(** The two [except] clauses of [_request], in the order of the source. *)
Definition except_transport {A} (e : exn) : M World A :=
  match e with
  | RequestException f =>
      if is_Timeout f then
        raise (SdkError BaseError (VStr "Request timed out") None)
      else if is_ConnectionError f then
        raise (SdkError BaseError (VStr "Connection error") None)
      else raise e
  | _ => raise e
  end.

Definition self_base_url : M World string := fun w => (w, Ok (base_url (self w))).
Definition self_timeout : M World Z := fun w => (w, Ok (timeout (self w))).
Definition self_headers : M World dict := fun w => (w, Ok (session_headers (self w))).

(** Numbers a caller passes ([amount: float], also given as an [int]). *)
Inductive number : Type :=
| NInt (z : Z)
| NFloat (mantissa exponent : Z).

Definition of_number (n : number) : value :=
  match n with
  | NInt z => VInt z
  | NFloat m e => VFloat m e
  end.

Definition str_of (s : option string) : string :=
  match s with Some s => s | None => "" end.

(** Iterating a value with [for tx in response]: a list yields its
    elements, a dictionary its keys, a string its characters; the rest is
    not iterable. *)
Fixpoint chars (s : string) : list value :=
  match s with
  | EmptyString => []
  | String c s' => VStr (String c EmptyString) :: chars s'
  end.

Definition iter (v : value) : result (list value) :=
  match v with
  | VList l => Ok l
  | VDict d => Ok (map (fun kv => VStr (fst kv)) d)
  | VStr s => Ok (chars s)
  | _ => Raise TypeError
  end.

(** The body of the loop of [get_history], over the elements still to
    come and the list built so far. *)
Fixpoint history_loop (items : list value) (transactions : list Transaction.t)
    : result (list Transaction.t) :=
  match items with
  | [] => Ok transactions
  | VDict tx :: items' =>
      history_loop items'
        (transactions ++
           [ {| Transaction.id := get tx "id";
                Transaction.provider := get tx "provider";
                Transaction.external_id := get tx "external_id";
                Transaction.amount := get tx "amount";
                Transaction.status := get tx "status";
                Transaction.created_at := get tx "created_at";
                Transaction.mode := get tx "mode" |} ])
  | _ :: _ => Raise AttributeError
  end.

(** ** The verification operations, shared by the two clients *)

Section Verification.

Variable brand : Brand.
Variable _request :
  string -> string -> option dict -> option dict -> M World value.

Definition verify (transaction_id : string) (amount : number)
    (provider merchant_name sub_provider : option string)
    : M World VerificationResult.t :=
  (* Auto-detect provider if not specified *)
  let provider :=
    if negb (truthy_str provider) then
      if startswith (upper transaction_id) "FT" then "cbe" else "telebirr"
    else str_of provider in
  let data :=
    [ ("provider", VStr provider);
      ("transaction_id", VStr transaction_id);
      ("amount", of_number amount) ] in
  let data :=
    if truthy_str merchant_name then
      setitem data "merchant_name" (VStr (str_of merchant_name))
    else
      setitem data "merchant_name" (VStr (default_merchant_name brand)) in
  let data :=
    if truthy_str sub_provider then
      setitem data "sub_provider" (VStr (str_of sub_provider))
    else data in
  response <- _request "POST" "/api/v1/verify" (Some data) None ;;
  lift (VerificationResult.from_response response).

Definition quick_verify (transaction_id : string) (amount : number)
    : M World VerificationResult.t :=
  let data :=
    [ ("transaction_id", VStr transaction_id);
      ("amount", of_number amount) ] in
  response <- _request "POST" "/api/v1/quick-verify" (Some data) None ;;
  lift (VerificationResult.from_response response).

Definition get_history (limit : Z) : M World (list Transaction.t) :=
  response <- _request "GET" "/api/v1/history" None None ;;
  items <- lift (iter response) ;;
  lift (history_loop items []).

End Verification.

(** What an operation hands back: a typed record, a list of them, or the
    decoded body as it is. *)
Inductive Returned : Type :=
| RVerification (r : VerificationResult.t)
| RTransactions (l : list Transaction.t)
| RValue (v : value).

(** ** [kyne.py] *)

Module Kyne.

Definition brand : Brand :=
  {| DEFAULT_BASE_URL := "https://api.kyne.com";
     user_agent := "Kyne-Python-SDK/1.0";
     default_merchant_name := "Kyne Verification" |}.

Definition __init__ := __init__ brand.

Definition _request (method path : string) (data params : option dict)
    : M World value :=
  base_url <- self_base_url ;;
  timeout <- self_timeout ;;
  let url := base_url ++ path in
  try_except
    (response <- session_request method url (FormData data) params timeout ;;
     check_status response)
    except_transport.

Definition verify := verify brand _request.
Definition quick_verify := quick_verify _request.
Definition get_history := get_history _request.

(** The public operations of the client, as one type. *)
Inductive Operation : Type :=
| Verify (transaction_id : string) (amount : number)
    (provider merchant_name sub_provider : option string)
| QuickVerify (transaction_id : string) (amount : number)
| GetHistory (limit : Z).

Definition run (op : Operation) : M World Returned :=
  match op with
  | Verify t a p m s => r <- verify t a p m s ;; ret (RVerification r)
  | QuickVerify t a => r <- quick_verify t a ;; ret (RVerification r)
  | GetHistory l => r <- get_history l ;; ret (RTransactions r)
  end.

End Kyne.

(** ** [shegerpay.py] *)

Module ShegerPay.

Definition brand : Brand :=
  {| DEFAULT_BASE_URL := "https://api.shegerpay.com";
     user_agent := "ShegerPay-Python-SDK/1.0";
     default_merchant_name := "ShegerPay Verification" |}.

Definition __init__ := __init__ brand.

Definition is_str (v : value) (s : string) : bool :=
  match v with
  | VStr s' => String.eqb s' s
  | _ => false
  end.

Definition truthy_dict (d : option dict) : bool :=
  match d with
  | Some (_ :: _) => true
  | _ => false
  end.

Definition dict_of (d : option dict) : dict :=
  match d with Some d => d | None => [] end.

Definition _request (method path : string) (data params : option dict)
    : M World value :=
  base_url <- self_base_url ;;
  timeout <- self_timeout ;;
  headers <- self_headers ;;
  let url := base_url ++ path in
  (* Use JSON for POST if Content-Type is JSON *)
  let use_json := is_str (get headers "Content-Type") application_json in
  try_except
    (response <-
       (if use_json && truthy_dict data then
          session_request method url (JsonData (dict_of data)) params timeout
        else
          session_request method url (FormData data) params timeout) ;;
     check_status response)
    except_transport.

Definition verify := verify brand _request.
Definition quick_verify := quick_verify _request.
Definition get_history := get_history _request.

(** Optional entries of a payload: [if x: data[k] = x] *)
Definition set_if_str (d : dict) (k : string) (x : option string) : dict :=
  if truthy_str x then setitem d k (VStr (str_of x)) else d.

Definition set_if_number (d : dict) (k : string) (x : option number) : dict :=
  match x with
  | Some n => if truthy (of_number n) then setitem d k (of_number n) else d
  | None => d
  end.

Definition strings (l : list string) : value := VList (map VStr l).

(* CRYPTO METHODS *)

Definition get_crypto_prices (symbol : option string) : M World value :=
  if truthy_str symbol then
    _request "GET" ("/api/v1/crypto/rate/" ++ upper (str_of symbol)) None None
  else
    _request "GET" "/api/v1/crypto/rates" None None.

Definition create_crypto_payment (amount_usd : number)
    (currency wallet_address chain : string) : M World value :=
  set_header "Content-Type" application_json ;;;
  response <- _request "POST" "/api/v1/crypto/generate-intent"
    (Some [ ("amount_usd", of_number amount_usd);
            ("currency", VStr (upper currency));
            ("wallet_address", VStr wallet_address);
            ("chain", VStr chain) ]) None ;;
  set_header "Content-Type" form_urlencoded ;;;
  ret response.

Definition verify_crypto_payment (reference_id : string)
    (transaction_hash : option string) : M World value :=
  set_header "Content-Type" application_json ;;;
  let data := [ ("reference_id", VStr reference_id) ] in
  let data := set_if_str data "transaction_hash" transaction_hash in
  response <- _request "POST" "/api/v1/crypto/verify-reference" (Some data) None ;;
  set_header "Content-Type" form_urlencoded ;;;
  ret response.

Definition get_crypto_status : M World value :=
  _request "GET" "/api/v1/crypto/status" None None.

(* PAYPAL / CREDIT CARD METHODS *)

Definition paypal_create_order (amount : number) (currency : string)
    (description : option string) (vault_on_approval : bool) : M World value :=
  set_header "Content-Type" application_json ;;;
  let data := [ ("amount", of_number amount); ("currency", VStr currency) ] in
  let data := set_if_str data "description" description in
  let data :=
    if vault_on_approval then setitem data "vault_on_approval" (VBool vault_on_approval)
    else data in
  response <- _request "POST" "/api/v1/paypal/create-order" (Some data) None ;;
  set_header "Content-Type" form_urlencoded ;;;
  ret response.

Definition paypal_capture_order (order_id : string) : M World value :=
  set_header "Content-Type" application_json ;;;
  response <- _request "POST" "/api/v1/paypal/capture-order"
    (Some [ ("order_id", VStr order_id) ]) None ;;
  set_header "Content-Type" form_urlencoded ;;;
  ret response.

Definition paypal_get_order (order_id : string) : M World value :=
  _request "GET" ("/api/v1/paypal/order/" ++ order_id) None None.

Definition paypal_create_setup_token : M World value :=
  set_header "Content-Type" application_json ;;;
  response <- _request "POST" "/api/v1/paypal/vault/setup-token" (Some []) None ;;
  set_header "Content-Type" form_urlencoded ;;;
  ret response.

Definition paypal_list_saved_cards : M World value :=
  _request "GET" "/api/v1/paypal/vault/payment-tokens" None None.

Definition paypal_charge_saved_card (payment_token_id : string)
    (amount : number) (currency : string) (description : option string)
    : M World value :=
  set_header "Content-Type" application_json ;;;
  let data :=
    [ ("payment_token_id", VStr payment_token_id);
      ("amount", of_number amount);
      ("currency", VStr currency) ] in
  let data := set_if_str data "description" description in
  response <- _request "POST" "/api/v1/paypal/vault/charge" (Some data) None ;;
  set_header "Content-Type" form_urlencoded ;;;
  ret response.

Definition paypal_delete_saved_card (token_id : string) : M World value :=
  _request "DELETE" ("/api/v1/paypal/vault/payment-token/" ++ token_id) None None.

Definition paypal_create_subscription (plan_id : string)
    (subscriber_email subscriber_name custom_id : option string)
    : M World value :=
  set_header "Content-Type" application_json ;;;
  let data := [ ("plan_id", VStr plan_id) ] in
  let data := set_if_str data "subscriber_email" subscriber_email in
  let data := set_if_str data "subscriber_name" subscriber_name in
  let data := set_if_str data "custom_id" custom_id in
  response <- _request "POST" "/api/v1/paypal/subscriptions" (Some data) None ;;
  set_header "Content-Type" form_urlencoded ;;;
  ret response.

Definition paypal_get_subscription (subscription_id : string) : M World value :=
  _request "GET" ("/api/v1/paypal/subscriptions/" ++ subscription_id) None None.

Definition paypal_cancel_subscription (subscription_id reason : string)
    : M World value :=
  set_header "Content-Type" application_json ;;;
  response <- _request "POST"
    ("/api/v1/paypal/subscriptions/" ++ subscription_id ++ "/cancel")
    (Some [ ("reason", VStr reason) ]) None ;;
  set_header "Content-Type" form_urlencoded ;;;
  ret response.

Definition paypal_refund (capture_id : string) (amount : option number)
    (currency : string) (note : option string) : M World value :=
  set_header "Content-Type" application_json ;;;
  let data := [ ("capture_id", VStr capture_id); ("currency", VStr currency) ] in
  let data := set_if_number data "amount" amount in
  let data := set_if_str data "note" note in
  response <- _request "POST" "/api/v1/paypal/refund" (Some data) None ;;
  set_header "Content-Type" form_urlencoded ;;;
  ret response.

Definition paypal_status : M World value :=
  _request "GET" "/api/v1/paypal/status" None None.

(* PAYMENT LINKS *)

Definition create_payment_link (title : string) (amount : number)
    (currency : string) (description : option string)
    (enable_cbe enable_telebirr enable_crypto : bool) (expires_in_hours : Z)
    : M World value :=
  set_header "Content-Type" application_json ;;;
  let data :=
    [ ("title", VStr title);
      ("amount", of_number amount);
      ("currency", VStr currency);
      ("enable_cbe", VBool enable_cbe);
      ("enable_telebirr", VBool enable_telebirr);
      ("enable_crypto", VBool enable_crypto);
      ("expires_in_hours", VInt expires_in_hours) ] in
  let data := set_if_str data "description" description in
  response <- _request "POST" "/api/v1/payment-links/" (Some data) None ;;
  set_header "Content-Type" form_urlencoded ;;;
  ret response.

Definition list_payment_links : M World value :=
  response <- _request "GET" "/api/v1/payment-links/" None None ;;
  ret (match response with
       | VDict d => get_default d "links" (VList [])
       | _ => response
       end).

Definition delete_payment_link (link_id : string) : M World value :=
  _request "DELETE" ("/api/v1/payment-links/" ++ link_id) None None.

(* WEBHOOKS *)

Definition create_webhook (url : string) (events : option (list string))
    : M World value :=
  set_header "Content-Type" application_json ;;;
  let data :=
    [ ("url", VStr url);
      ("events", match events with
                 | Some ((_ :: _) as l) => strings l
                 | _ => strings ["*"]
                 end) ] in
  response <- _request "POST" "/api/v1/webhooks/" (Some data) None ;;
  set_header "Content-Type" form_urlencoded ;;;
  ret response.

Definition list_webhooks : M World value :=
  _request "GET" "/api/v1/webhooks/" None None.

Definition test_webhook (webhook_id : string) : M World value :=
  _request "POST" ("/api/v1/webhooks/test?webhook_id=" ++ webhook_id) None None.

Definition delete_webhook (webhook_id : string) : M World value :=
  _request "DELETE" ("/api/v1/webhooks/" ++ webhook_id) None None.

(* MULTI-CURRENCY WALLETS *)

Definition get_wallet_balance : M World value :=
  _request "GET" "/api/v1/wallets/balances" None None.

Definition convert_currency (from_currency to_currency : string)
    (amount : number) : M World value :=
  set_header "Content-Type" application_json ;;;
  let payload :=
    [ ("from_currency", VStr from_currency);
      ("to_currency", VStr to_currency);
      ("amount", of_number amount) ] in
  response <- _request "POST" "/api/v1/wallets/convert" (Some payload) None ;;
  set_header "Content-Type" form_urlencoded ;;;
  ret response.

(* REFUNDS *)

Definition create_refund (transaction_id : string) (amount : option number)
    (reason : option string) : M World value :=
  set_header "Content-Type" application_json ;;;
  let payload := [ ("transaction_id", VStr transaction_id) ] in
  let payload := set_if_number payload "amount" amount in
  let payload := set_if_str payload "reason" reason in
  response <- _request "POST" "/api/v1/refunds" (Some payload) None ;;
  set_header "Content-Type" form_urlencoded ;;;
  ret response.

Definition list_refunds (status : option string) (limit : Z) : M World value :=
  let params := [ ("limit", VInt limit) ] in
  let params := set_if_str params "status" status in
  _request "GET" "/api/v1/refunds" None (Some params).

(* DISPUTES *)

Definition list_disputes (status : option string) (limit : Z) : M World value :=
  let params := [ ("limit", VInt limit) ] in
  let params := set_if_str params "status" status in
  _request "GET" "/api/v1/disputes" None (Some params).

Definition respond_to_dispute (dispute_id message : string)
    (evidence : option (list string)) : M World value :=
  set_header "Content-Type" application_json ;;;
  let payload := [ ("message", VStr message) ] in
  let payload :=
    match evidence with
    | Some ((_ :: _) as l) => setitem payload "evidence_urls" (strings l)
    | _ => payload
    end in
  response <- _request "POST" ("/api/v1/disputes/" ++ dispute_id ++ "/respond")
    (Some payload) None ;;
  set_header "Content-Type" form_urlencoded ;;;
  ret response.

(* PAYOUTS *)

Definition request_payout (amount : number) (currency method : string)
    (kwargs : dict) : M World value :=
  set_header "Content-Type" application_json ;;;
  let data :=
    update [ ("amount", of_number amount);
             ("currency", VStr currency);
             ("method", VStr method) ] kwargs in
  response <- _request "POST" "/api/v1/payouts" (Some data) None ;;
  set_header "Content-Type" form_urlencoded ;;;
  ret response.

Definition list_payouts (status : option string) : M World value :=
  let params := if truthy_str status then [ ("status", VStr (str_of status)) ] else [] in
  _request "GET" "/api/v1/payouts" None (Some params).

(* TRANSACTIONS *)

Definition list_transactions (status provider : option string) (limit : Z)
    : M World value :=
  let params := [ ("limit", VInt limit) ] in
  let params := set_if_str params "status" status in
  let params := set_if_str params "provider" provider in
  _request "GET" "/api/v1/transactions/history" None (Some params).

(* SUBSCRIPTIONS *)

Definition get_subscription : M World value :=
  _request "GET" "/api/v1/subscriptions/current" None None.

Definition get_usage : M World value :=
  _request "GET" "/api/v1/subscriptions/usage" None None.

(* TWO-FACTOR AUTHENTICATION *)

Definition setup_2fa : M World value :=
  set_header "Content-Type" application_json ;;;
  response <- _request "POST" "/api/v1/two-factor/setup" (Some []) None ;;
  set_header "Content-Type" form_urlencoded ;;;
  ret response.

Definition verify_2fa (code : string) : M World value :=
  set_header "Content-Type" application_json ;;;
  response <- _request "POST" "/api/v1/two-factor/verify"
    (Some [ ("code", VStr code) ]) None ;;
  set_header "Content-Type" form_urlencoded ;;;
  ret response.

Definition get_2fa_status : M World value :=
  _request "GET" "/api/v1/two-factor/status" None None.

Definition disable_2fa (code : string) : M World value :=
  set_header "Content-Type" application_json ;;;
  response <- _request "POST" "/api/v1/two-factor/disable"
    (Some [ ("code", VStr code) ]) None ;;
  set_header "Content-Type" form_urlencoded ;;;
  ret response.

(* PASSKEYS (WebAuthn) *)

Definition list_passkeys : M World value :=
  _request "GET" "/api/v1/passkeys" None None.

Definition delete_passkey (passkey_id : string) : M World value :=
  _request "DELETE" ("/api/v1/passkeys/" ++ passkey_id) None None.

(* INTERNATIONAL PAYMENTS *)

Definition add_wise_account (email : string) (label : option string)
    : M World value :=
  set_header "Content-Type" application_json ;;;
  let data := [ ("provider", VStr "wise"); ("email", VStr email) ] in
  let data := set_if_str data "label" label in
  response <- _request "POST" "/api/v1/international/wallet-accounts" (Some data) None ;;
  set_header "Content-Type" form_urlencoded ;;;
  ret response.

Definition add_payoneer_account (email : string) (label : option string)
    : M World value :=
  set_header "Content-Type" application_json ;;;
  let data := [ ("provider", VStr "payoneer"); ("email", VStr email) ] in
  let data := set_if_str data "label" label in
  response <- _request "POST" "/api/v1/international/wallet-accounts" (Some data) None ;;
  set_header "Content-Type" form_urlencoded ;;;
  ret response.

Definition get_gmail_status : M World value :=
  _request "GET" "/api/v1/international/gmail/status" None None.

(** The public operations of the client, as one type. *)
Inductive Operation : Type :=
| Verify (transaction_id : string) (amount : number)
    (provider merchant_name sub_provider : option string)
| QuickVerify (transaction_id : string) (amount : number)
| GetHistory (limit : Z)
| GetCryptoPrices (symbol : option string)
| CreateCryptoPayment (amount_usd : number) (currency wallet_address chain : string)
| VerifyCryptoPayment (reference_id : string) (transaction_hash : option string)
| GetCryptoStatus
| PaypalCreateOrder (amount : number) (currency : string)
    (description : option string) (vault_on_approval : bool)
| PaypalCaptureOrder (order_id : string)
| PaypalGetOrder (order_id : string)
| PaypalCreateSetupToken
| PaypalListSavedCards
| PaypalChargeSavedCard (payment_token_id : string) (amount : number)
    (currency : string) (description : option string)
| PaypalDeleteSavedCard (token_id : string)
| PaypalCreateSubscription (plan_id : string)
    (subscriber_email subscriber_name custom_id : option string)
| PaypalGetSubscription (subscription_id : string)
| PaypalCancelSubscription (subscription_id reason : string)
| PaypalRefund (capture_id : string) (amount : option number)
    (currency : string) (note : option string)
| PaypalStatus
| CreatePaymentLink (title : string) (amount : number) (currency : string)
    (description : option string)
    (enable_cbe enable_telebirr enable_crypto : bool) (expires_in_hours : Z)
| ListPaymentLinks
| DeletePaymentLink (link_id : string)
| CreateWebhook (url : string) (events : option (list string))
| ListWebhooks
| TestWebhook (webhook_id : string)
| DeleteWebhook (webhook_id : string)
| GetWalletBalance
| ConvertCurrency (from_currency to_currency : string) (amount : number)
| CreateRefund (transaction_id : string) (amount : option number)
    (reason : option string)
| ListRefunds (status : option string) (limit : Z)
| ListDisputes (status : option string) (limit : Z)
| RespondToDispute (dispute_id message : string) (evidence : option (list string))
| RequestPayout (amount : number) (currency method : string) (kwargs : dict)
| ListPayouts (status : option string)
| ListTransactions (status provider : option string) (limit : Z)
| GetSubscription
| GetUsage
| Setup2fa
| Verify2fa (code : string)
| Get2faStatus
| Disable2fa (code : string)
| ListPasskeys
| DeletePasskey (passkey_id : string)
| AddWiseAccount (email : string) (label : option string)
| AddPayoneerAccount (email : string) (label : option string)
| GetGmailStatus.

Definition returning (m : M World value) : M World Returned :=
  v <- m ;; ret (RValue v).

Definition run (op : Operation) : M World Returned :=
  match op with
  | Verify t a p m s => r <- verify t a p m s ;; ret (RVerification r)
  | QuickVerify t a => r <- quick_verify t a ;; ret (RVerification r)
  | GetHistory l => r <- get_history l ;; ret (RTransactions r)
  | GetCryptoPrices s => returning (get_crypto_prices s)
  | CreateCryptoPayment a c w ch => returning (create_crypto_payment a c w ch)
  | VerifyCryptoPayment r h => returning (verify_crypto_payment r h)
  | GetCryptoStatus => returning get_crypto_status
  | PaypalCreateOrder a c d v => returning (paypal_create_order a c d v)
  | PaypalCaptureOrder o => returning (paypal_capture_order o)
  | PaypalGetOrder o => returning (paypal_get_order o)
  | PaypalCreateSetupToken => returning paypal_create_setup_token
  | PaypalListSavedCards => returning paypal_list_saved_cards
  | PaypalChargeSavedCard t a c d => returning (paypal_charge_saved_card t a c d)
  | PaypalDeleteSavedCard t => returning (paypal_delete_saved_card t)
  | PaypalCreateSubscription p e n c => returning (paypal_create_subscription p e n c)
  | PaypalGetSubscription s => returning (paypal_get_subscription s)
  | PaypalCancelSubscription s r => returning (paypal_cancel_subscription s r)
  | PaypalRefund c a cu n => returning (paypal_refund c a cu n)
  | PaypalStatus => returning paypal_status
  | CreatePaymentLink t a c d e1 e2 e3 h =>
      returning (create_payment_link t a c d e1 e2 e3 h)
  | ListPaymentLinks => returning list_payment_links
  | DeletePaymentLink l => returning (delete_payment_link l)
  | CreateWebhook u e => returning (create_webhook u e)
  | ListWebhooks => returning list_webhooks
  | TestWebhook w => returning (test_webhook w)
  | DeleteWebhook w => returning (delete_webhook w)
  | GetWalletBalance => returning get_wallet_balance
  | ConvertCurrency f t a => returning (convert_currency f t a)
  | CreateRefund t a r => returning (create_refund t a r)
  | ListRefunds s l => returning (list_refunds s l)
  | ListDisputes s l => returning (list_disputes s l)
  | RespondToDispute d m e => returning (respond_to_dispute d m e)
  | RequestPayout a c m k => returning (request_payout a c m k)
  | ListPayouts s => returning (list_payouts s)
  | ListTransactions s p l => returning (list_transactions s p l)
  | GetSubscription => returning get_subscription
  | GetUsage => returning get_usage
  | Setup2fa => returning setup_2fa
  | Verify2fa c => returning (verify_2fa c)
  | Get2faStatus => returning get_2fa_status
  | Disable2fa c => returning (disable_2fa c)
  | ListPasskeys => returning list_passkeys
  | DeletePasskey p => returning (delete_passkey p)
  | AddWiseAccount e l => returning (add_wise_account e l)
  | AddPayoneerAccount e l => returning (add_payoneer_account e l)
  | GetGmailStatus => returning get_gmail_status
  end.

End ShegerPay.

(** ** The module-level convenience functions *)

(** A method run on a client that lives for this one call: what remains
    afterwards is the network. *)
Definition with_client {A} (client : Client) (m : M World A) : M Net A :=
  fun n => let (w, r) := m (mkWorld client n) in (net w, r).

(** [kyne.verify(api_key, transaction_id, amount, **kwargs)]; the keyword
    arguments [client.verify] accepts are its three optional ones. *)
Module kyne.

Definition verify (api_key transaction_id : string) (amount : number)
    (provider merchant_name sub_provider : option string)
    : M Net VerificationResult.t :=
  client <- Kyne.__init__ api_key None 30 ;;
  with_client client
    (Kyne.verify transaction_id amount provider merchant_name sub_provider).

End kyne.

Module shegerpay.

Definition verify (api_key transaction_id : string) (amount : number)
    (provider merchant_name sub_provider : option string)
    : M Net VerificationResult.t :=
  client <- ShegerPay.__init__ api_key None 30 ;;
  with_client client
    (ShegerPay.verify transaction_id amount provider merchant_name sub_provider).

End shegerpay.

(** * Vocabulary of the properties *)

Definition outcome {A} (m : M World A) (w : World) : result A := snd (m w).
Definition after {A} (m : M World A) (w : World) : World := fst (m w).

(** The world once [req] has gone out. *)
Definition having_sent (w : World) (req : HttpRequest) : World :=
  mkWorld (self w) (mkNet (sent (net w) ++ [req]) (remote (net w))).

(** The remote service answers whatever it is sent next with [o]. *)
Definition answers (w : World) (o : Outcome) : Prop :=
  forall req, remote (net w) (sent (net w)) req = o.

(** The payload of a request, whichever way it is encoded. *)
Definition payload_of (b : Body) : option dict :=
  match b with
  | FormData d => d
  | JsonData d => Some d
  end.

(** What [_request] makes of a round trip: the value it returns or the
    exception that leaves it. *)
Definition surfaced (o : Outcome) : result value :=
  match o with
  | Failed f =>
      if is_Timeout f then
        Raise (SdkError BaseError (VStr "Request timed out") None)
      else if is_ConnectionError f then
        Raise (SdkError BaseError (VStr "Connection error") None)
      else Raise (RequestException f)
  | Responded r =>
      if status_code r =? 401 then
        Raise (SdkError AuthenticationError (VStr "Invalid API key") (Some 401))
      else if status_code r =? 400 then
        match json r with
        | None => Raise JSONDecodeError
        | Some (VDict d) =>
            Raise (SdkError ValidationError
                     (get_default d "detail" (VStr "Validation error")) (Some 400))
        | Some _ => Raise AttributeError
        end
      else if status_code r >=? 500 then
        Raise (SdkError BaseError (VStr "Server error") (Some (status_code r)))
      else
        match json r with
        | None => Raise JSONDecodeError
        | Some v => Ok v
        end
  end.

(** The request [Kyne._request] sends. *)
Definition kyne_request_of (w : World) (method path : string)
    (data params : option dict) : HttpRequest :=
  mkRequest method (base_url (self w) ++ path) (session_headers (self w))
    (FormData data) params (timeout (self w)).

(** The request [ShegerPay._request] sends: the payload goes out as JSON
    when the session's Content-Type says so at that moment. *)
Definition shegerpay_request_of (w : World) (method path : string)
    (data params : option dict) : HttpRequest :=
  mkRequest method (base_url (self w) ++ path) (session_headers (self w))
    (if ShegerPay.is_str (get (session_headers (self w)) "Content-Type") application_json
        && ShegerPay.truthy_dict data
     then JsonData (ShegerPay.dict_of data) else FormData data)
    params (timeout (self w)).

(** A field [x] of a mapped record is the entry of [data] under [k] when
    there is one, and [default] when there is none. *)
Definition copied (data : dict) (k : string) (default x : value) : Prop :=
  (forall v, lookup k data = Some v -> x = v) /\
  (lookup k data = None -> x = default).

(** An identifier begins with FT, in either case of either letter. *)
Definition begins_with_FT (s : string) : bool :=
  match s with
  | String c1 (String c2 _) =>
      (Ascii.eqb c1 "F" || Ascii.eqb c1 "f") && (Ascii.eqb c2 "T" || Ascii.eqb c2 "t")
  | _ => false
  end.

(** The dictionary [verify] hands to [_request], in closed form. *)
Definition verify_payload (brand : Brand) (transaction_id : string)
    (amount : number) (provider merchant_name sub_provider : option string)
    : dict :=
  ([ ("provider",
      VStr (if truthy_str provider then str_of provider
            else if begins_with_FT transaction_id then "cbe" else "telebirr"));
     ("transaction_id", VStr transaction_id);
     ("amount", of_number amount);
     ("merchant_name",
      VStr (if truthy_str merchant_name then str_of merchant_name
            else default_merchant_name brand)) ]
   ++ (if truthy_str sub_provider
       then [ ("sub_provider", VStr (str_of sub_provider)) ] else []))%list.

(** A pure step after a result. *)
Definition and_then {A B} (r : result A) (f : A -> result B) : result B :=
  match r with
  | Ok a => f a
  | Raise e => Raise e
  end.

(** A client built by the constructor from [api_key], with the default
    base URL and timeout, facing a remote service that answers everything
    with [o]. *)
Definition constructed (brand : Brand) (api_key : string) (o : Outcome) : World :=
  let n := mkNet [] (fun _ _ => o) in
  match snd (__init__ brand api_key None 30 n) with
  | Ok c => mkWorld c n
  | Raise _ => mkWorld (mkClient "" "" 0 "" []) n
  end.

Definition ok_with (v : value) : Outcome := Responded (mkResponse 200 (Some v)).

(** The Transaction [get_history] makes of one record. *)
Definition transaction_of (tx : dict) : Transaction.t :=
  {| Transaction.id := get tx "id";
     Transaction.provider := get tx "provider";
     Transaction.external_id := get tx "external_id";
     Transaction.amount := get tx "amount";
     Transaction.status := get tx "status";
     Transaction.created_at := get tx "created_at";
     Transaction.mode := get tx "mode" |}.

(** Every field of [t] is the entry of the record [tx] under the field's
    name; a field whose entry is missing is [None]. *)
Definition mapped (tx : dict) (t : Transaction.t) : Prop :=
  copied tx "id" VNone (Transaction.id t) /\
  copied tx "provider" VNone (Transaction.provider t) /\
  copied tx "external_id" VNone (Transaction.external_id t) /\
  copied tx "amount" VNone (Transaction.amount t) /\
  copied tx "status" VNone (Transaction.status t) /\
  copied tx "created_at" VNone (Transaction.created_at t) /\
  copied tx "mode" VNone (Transaction.mode t).

(** What [get_history] makes of a decoded body. *)
Definition history_of (response : value) : result (list Transaction.t) :=
  and_then (iter response) (fun items => history_loop items []).

(** A record of the history endpoint with its seven entries, one that has
    only its id, and the test client facing an endpoint that answers with
    the given records. *)
Definition full_record : dict :=
  [ ("id", VStr "tx_1"); ("provider", VStr "cbe");
    ("external_id", VStr "FT24352648751234"); ("amount", VInt 100);
    ("status", VStr "verified"); ("created_at", VStr "2024-12-17T10:00:00");
    ("mode", VStr "test") ].

Definition bare_record : dict := [ ("id", VStr "tx_1") ].

Definition history_world (brand : Brand) (records : list dict) : World :=
  constructed brand "sk_test_abc" (ok_with (VList (map VDict records))).

(** The shape each operation gives the decoded body it got. *)
Definition kyne_shape (op : Kyne.Operation) (v : value) : result Returned :=
  match op with
  | Kyne.Verify _ _ _ _ _ | Kyne.QuickVerify _ _ =>
      and_then (VerificationResult.from_response v) (fun r => Ok (RVerification r))
  | Kyne.GetHistory _ =>
      and_then (history_of v) (fun l => Ok (RTransactions l))
  end.

Definition shegerpay_shape (op : ShegerPay.Operation) (v : value) : result Returned :=
  match op with
  | ShegerPay.Verify _ _ _ _ _ | ShegerPay.QuickVerify _ _ =>
      and_then (VerificationResult.from_response v) (fun r => Ok (RVerification r))
  | ShegerPay.GetHistory _ =>
      and_then (history_of v) (fun l => Ok (RTransactions l))
  | ShegerPay.ListPaymentLinks =>
      Ok (RValue (match v with
                  | VDict d => get_default d "links" (VList [])
                  | _ => v
                  end))
  | _ => Ok (RValue v)
  end.

(** The operations of [shegerpay.py] that set the session's Content-Type to
    JSON before their request: the rich-resource family. *)
Definition sets_json (op : ShegerPay.Operation) : bool :=
  match op with
  | ShegerPay.CreateCryptoPayment _ _ _ _
  | ShegerPay.VerifyCryptoPayment _ _
  | ShegerPay.PaypalCreateOrder _ _ _ _
  | ShegerPay.PaypalCaptureOrder _
  | ShegerPay.PaypalCreateSetupToken
  | ShegerPay.PaypalChargeSavedCard _ _ _ _
  | ShegerPay.PaypalCreateSubscription _ _ _ _
  | ShegerPay.PaypalCancelSubscription _ _
  | ShegerPay.PaypalRefund _ _ _ _
  | ShegerPay.CreatePaymentLink _ _ _ _ _ _ _ _
  | ShegerPay.CreateWebhook _ _
  | ShegerPay.ConvertCurrency _ _ _
  | ShegerPay.CreateRefund _ _ _
  | ShegerPay.RespondToDispute _ _ _
  | ShegerPay.RequestPayout _ _ _ _
  | ShegerPay.Setup2fa
  | ShegerPay.Verify2fa _
  | ShegerPay.Disable2fa _
  | ShegerPay.AddWiseAccount _ _
  | ShegerPay.AddPayoneerAccount _ _ => true
  | _ => false
  end.

(** The world with the session's Content-Type set to [v]. *)
Definition with_content_type (w : World) (v : string) : World :=
  fst (set_header "Content-Type" v w).

Definition content_type (w : World) : value :=
  get (session_headers (self w)) "Content-Type".

(** An operation seen as a call of [_request] followed by its shape. *)
Definition shaped (shape : value -> result Returned) (m : M World value)
    : M World Returned :=
  v <- m ;; lift (shape v).

(** The pattern of the JSON operations of [shegerpay.py]: set the header,
    call, set it back. *)
Definition json_call (method path : string) (data params : option dict)
    : M World value :=
  set_header "Content-Type" application_json ;;;
  response <- ShegerPay._request method path data params ;;
  set_header "Content-Type" form_urlencoded ;;;
  ret response.

(** A [shegerpay.py] client facing a service that refuses its key, the
    crypto payment used as the failing JSON call, and the world that call
    leaves. *)
Definition refusing_world : World :=
  constructed ShegerPay.brand "sk_test_abc" (Responded (mkResponse 401 None)).

Definition crypto_payment : ShegerPay.Operation :=
  ShegerPay.CreateCryptoPayment (NInt 50) "usdt"
    "TJCnKsPa7y5okkXvQAidZBzqx3QyQ6sxMW" "TRON".

Definition after_refusal : World := after (ShegerPay.run crypto_payment) refusing_world.

(** A caller that issues the operations of [ops] one after the other on the
    same client and goes on after an exception. *)
Fixpoint run_all (ops : list ShegerPay.Operation) (w : World) : World :=
  match ops with
  | [] => w
  | op :: ops' => run_all ops' (after (ShegerPay.run op) w)
  end.

Definition is_dict (v : value) : bool :=
  match v with VDict _ => true | _ => false end.

Definition as_dict (v : value) : dict :=
  match v with VDict d => d | _ => [] end.

(** [n] slashes *)
Fixpoint slashes (n : nat) : string :=
  match n with
  | O => ""
  | S n' => String "/" (slashes n')
  end.

Fixpoint last_char (s : string) : option ascii :=
  match s with
  | EmptyString => None
  | String c EmptyString => Some c
  | String _ s' => last_char s'
  end.

(** The three operations that map the decoded body into records. *)
Definition typed (op : ShegerPay.Operation) : bool :=
  match op with
  | ShegerPay.Verify _ _ _ _ _ | ShegerPay.QuickVerify _ _ | ShegerPay.GetHistory _ => true
  | _ => false
  end.

(** A status that [_request] lets through. *)
Definition passes (r : Response) : Prop :=
  status_code r <> 400 /\ status_code r <> 401 /\ status_code r < 500.

(** What can be said of the call of [_request] an operation makes. *)
Definition well_routed (op : ShegerPay.Operation) (method path : string)
    (data params : option dict) : Prop :=
  (method = "GET" \/ method = "POST" \/ method = "DELETE") /\
  (exists rest, path = "/api/v1/" ++ rest) /\
  (sets_json op = true -> method = "POST" /\ data <> None /\ params = None) /\
  (method <> "POST" -> data = None) /\
  (params <> None -> method = "GET").

(** * Lemmas on the request layer *)

Lemma check_status_surfaced (r : Response) (w : World) :
  check_status r w = (w, surfaced (Responded r)).
Proof.
  unfold check_status, surfaced.
  destruct (status_code r =? 401); [reflexivity|].
  destruct (status_code r =? 400).
  - unfold bind, response_json, detail_of.
    destruct (json r) as [[| | | | | |]|]; reflexivity.
  - destruct (status_code r >=? 500); [reflexivity|].
    unfold response_json. destruct (json r); reflexivity.
Qed.

Lemma surfaced_not_transport (r : Response) (f : Fault) :
  surfaced (Responded r) = Raise (RequestException f) -> False.
Proof.
  unfold surfaced.
  destruct (status_code r =? 401); [discriminate|].
  destruct (status_code r =? 400).
  - destruct (json r) as [[| | | | | |]|]; discriminate.
  - destruct (status_code r >=? 500); [discriminate|].
    destruct (json r); discriminate.
Qed.

Lemma except_transport_surfaced (r : Response) (w : World) :
  match surfaced (Responded r) with
  | Ok a => (w, Ok a)
  | Raise e => except_transport e w
  end = (w, surfaced (Responded r)).
Proof.
  destruct (surfaced (Responded r)) as [a|e] eqn:E; [reflexivity|].
  destruct e; try reflexivity.
  exfalso. exact (surfaced_not_transport r f E).
Qed.

Lemma kyne_request_run (method path : string) (data params : option dict) (w : World) :
  Kyne._request method path data params w =
    (having_sent w (kyne_request_of w method path data params),
     surfaced (remote (net w) (sent (net w)) (kyne_request_of w method path data params))).
Proof.
  unfold Kyne._request, bind, self_base_url, self_timeout, try_except,
    session_request, kyne_request_of, having_sent. cbn.
  destruct (remote _ _ _) as [r|f].
  - rewrite check_status_surfaced. apply except_transport_surfaced.
  - cbn. destruct (is_Timeout f); [reflexivity|].
    destruct (is_ConnectionError f); reflexivity.
Qed.

Lemma shegerpay_request_run (method path : string) (data params : option dict) (w : World) :
  ShegerPay._request method path data params w =
    (having_sent w (shegerpay_request_of w method path data params),
     surfaced (remote (net w) (sent (net w)) (shegerpay_request_of w method path data params))).
Proof.
  unfold ShegerPay._request, bind, self_base_url, self_timeout, self_headers,
    try_except, shegerpay_request_of, having_sent. cbn.
  destruct (ShegerPay.is_str _ _ && ShegerPay.truthy_dict data);
    unfold session_request; cbn;
    (destruct (remote _ _ _) as [r|f];
     [ rewrite check_status_surfaced; apply except_transport_surfaced
     | cbn; destruct (is_Timeout f); [reflexivity|];
       destruct (is_ConnectionError f); reflexivity ]).
Qed.

(** Whatever the encoding chosen, the payload that goes out is the one
    [_request] was given. *)
Lemma shegerpay_request_payload (w : World) (method path : string)
    (data params : option dict) :
  payload_of (req_body (shegerpay_request_of w method path data params)) = data.
Proof.
  unfold shegerpay_request_of. cbn.
  destruct (ShegerPay.is_str _ _); cbn; [|reflexivity].
  destruct data as [[|kv d]|]; reflexivity.
Qed.

(** * Response mapping *)

Lemma get_default_copied (data : dict) (k : string) (default : value) :
  copied data k default (get_default data k default).
Proof.
  unfold copied, get_default.
  destruct (lookup k data) as [v|].
  - split; [intros v' H; now inversion H | discriminate].
  - split; [discriminate | reflexivity].
Qed.

(** C9.  A decoded verification body that is a JSON object is mapped field
    by field: [valid] defaults to [False] and [status] to ["unknown"] when
    absent, each of the six other fields is the body's entry when there is
    one and [None] (unset) when there is none; the body
    {"valid": true, "status": "verified", "provider": "cbe", "amount": 100}
    gives valid=True, status="verified", provider="cbe", amount=100 and
    [None] for transaction_id, reason, mode and payer. *)
Theorem from_response_field_by_field :
  (forall data : dict,
     exists r,
       VerificationResult.from_response (VDict data) = Ok r /\
       copied data "valid" (VBool false) (VerificationResult.valid r) /\
       copied data "status" (VStr "unknown") (VerificationResult.status r) /\
       copied data "provider" VNone (VerificationResult.provider r) /\
       copied data "transaction_id" VNone (VerificationResult.transaction_id r) /\
       copied data "amount" VNone (VerificationResult.amount r) /\
       copied data "reason" VNone (VerificationResult.reason r) /\
       copied data "mode" VNone (VerificationResult.mode r) /\
       copied data "payer" VNone (VerificationResult.payer r)) /\
  VerificationResult.from_response
    (VDict [ ("valid", VBool true); ("status", VStr "verified");
             ("provider", VStr "cbe"); ("amount", VInt 100) ]) =
  Ok {| VerificationResult.valid := VBool true;
        VerificationResult.status := VStr "verified";
        VerificationResult.provider := VStr "cbe";
        VerificationResult.transaction_id := VNone;
        VerificationResult.amount := VInt 100;
        VerificationResult.reason := VNone;
        VerificationResult.mode := VNone;
        VerificationResult.payer := VNone |}.
Proof.
  split; [|reflexivity].
  intro data. eexists. split; [reflexivity|]. cbn.
  repeat split; apply get_default_copied.
Qed.

(** * Provider detection and the payload of [verify] *)

Lemma upper_char_F (c : ascii) (p rest : string) :
  String.prefix (String "F" p) (upper_char c ++ rest) =
    ((Ascii.eqb c "F" || Ascii.eqb c "f") && String.prefix p rest)%bool.
Proof. destruct c as [[] [] [] [] [] [] [] []]; reflexivity. Qed.

Lemma upper_char_T (c : ascii) (p rest : string) :
  String.prefix (String "T" p) (upper_char c ++ rest) =
    ((Ascii.eqb c "T" || Ascii.eqb c "t") && String.prefix p rest)%bool.
Proof. destruct c as [[] [] [] [] [] [] [] []]; reflexivity. Qed.

Lemma prefix_cons (a b : ascii) (p s : string) :
  String.prefix (String a p) (String b s) = (Ascii.eqb b a && String.prefix p s)%bool.
Proof.
  cbn. destruct (ascii_dec a b) as [->|n].
  - now rewrite Ascii.eqb_refl.
  - destruct (Ascii.eqb b a) eqn:E; [|reflexivity].
    apply Ascii.eqb_eq in E. congruence.
Qed.

Lemma prefix_empty (s : string) : String.prefix "" s = true.
Proof. destruct s; reflexivity. Qed.

Lemma upper_startswith_FT (s : string) :
  startswith (upper s) "FT" = begins_with_FT s.
Proof.
  unfold startswith.
  destruct s as [|c1 [|c2 s]]; try reflexivity.
  - cbn [upper]. rewrite upper_char_F. cbn. now rewrite andb_false_r.
  - cbn [upper]. rewrite upper_char_F, upper_char_T, prefix_empty.
    cbn. destruct (Ascii.eqb c1 "F" || Ascii.eqb c1 "f")%bool; [|reflexivity].
    destruct (Ascii.eqb c2 "T" || Ascii.eqb c2 "t")%bool; reflexivity.
Qed.

Lemma verify_builds_payload (brand : Brand)
    (request : string -> string -> option dict -> option dict -> M World value)
    (transaction_id : string) (amount : number)
    (provider merchant_name sub_provider : option string) :
  verify brand request transaction_id amount provider merchant_name sub_provider =
    (response <- request "POST" "/api/v1/verify"
       (Some (verify_payload brand transaction_id amount provider
                merchant_name sub_provider)) None ;;
     lift (VerificationResult.from_response response)).
Proof.
  unfold verify, verify_payload. rewrite upper_startswith_FT.
  destruct (truthy_str provider), (truthy_str merchant_name),
    (truthy_str sub_provider); reflexivity.
Qed.

Lemma kyne_verify_run (transaction_id : string) (amount : number)
    (provider merchant_name sub_provider : option string) (w : World) :
  let req := kyne_request_of w "POST" "/api/v1/verify"
    (Some (verify_payload Kyne.brand transaction_id amount provider
             merchant_name sub_provider)) None in
  Kyne.verify transaction_id amount provider merchant_name sub_provider w =
    (having_sent w req,
     and_then (surfaced (remote (net w) (sent (net w)) req))
       VerificationResult.from_response).
Proof.
  intro req. unfold Kyne.verify. rewrite verify_builds_payload.
  unfold bind. rewrite kyne_request_run. fold req.
  destruct (surfaced _); reflexivity.
Qed.

Lemma shegerpay_verify_run (transaction_id : string) (amount : number)
    (provider merchant_name sub_provider : option string) (w : World) :
  let req := shegerpay_request_of w "POST" "/api/v1/verify"
    (Some (verify_payload ShegerPay.brand transaction_id amount provider
             merchant_name sub_provider)) None in
  ShegerPay.verify transaction_id amount provider merchant_name sub_provider w =
    (having_sent w req,
     and_then (surfaced (remote (net w) (sent (net w)) req))
       VerificationResult.from_response).
Proof.
  intro req. unfold ShegerPay.verify. rewrite verify_builds_payload.
  unfold bind. rewrite shegerpay_request_run. fold req.
  destruct (surfaced _); reflexivity.
Qed.

Lemma verify_payload_no_None (brand : Brand) (transaction_id : string)
    (amount : number) (provider merchant_name sub_provider : option string)
    (k : string) (v : value) :
  In (k, v) (verify_payload brand transaction_id amount provider
               merchant_name sub_provider) ->
  v <> VNone.
Proof.
  unfold verify_payload. intros H E. subst v.
  apply in_app_or in H. destruct H as [H|H].
  - cbn in H. destruct amount;
      repeat (destruct H as [H|H]; [discriminate H|]); exact H.
  - destruct (truthy_str sub_provider); cbn in H;
      repeat (destruct H as [H|H]; [discriminate H|]); exact H.
Qed.

Lemma verify_payload_lookups (brand : Brand) (transaction_id : string)
    (amount : number) (provider merchant_name sub_provider : option string) :
  let data := verify_payload brand transaction_id amount provider
                merchant_name sub_provider in
  lookup "provider" data =
    Some (VStr (if truthy_str provider then str_of provider
                else if begins_with_FT transaction_id then "cbe" else "telebirr")) /\
  lookup "merchant_name" data =
    Some (VStr (if truthy_str merchant_name then str_of merchant_name
                else default_merchant_name brand)) /\
  lookup "sub_provider" data =
    (if truthy_str sub_provider then Some (VStr (str_of sub_provider)) else None).
Proof.
  unfold verify_payload. cbn.
  destruct (truthy_str sub_provider); repeat split; reflexivity.
Qed.

(** C5.  When the caller gives no provider ([None], or the empty string,
    which [if not provider] treats alike), the payload [verify] sends names
    provider "cbe" exactly when the identifier begins with FT in either
    case, and "telebirr" otherwise; the empty identifier is among the
    others.  The request is sent whatever the identifier: nothing fails
    before the network call. *)
Theorem verify_auto_detects_provider (transaction_id : string) (amount : number)
    (provider merchant_name sub_provider : option string) (w : World) :
  truthy_str provider = false ->
  (exists req data,
     after (Kyne.verify transaction_id amount provider merchant_name sub_provider) w
       = having_sent w req /\
     payload_of (req_body req) = Some data /\
     lookup "provider" data =
       Some (VStr (if begins_with_FT transaction_id then "cbe" else "telebirr"))) /\
  (exists req data,
     after (ShegerPay.verify transaction_id amount provider merchant_name sub_provider) w
       = having_sent w req /\
     payload_of (req_body req) = Some data /\
     lookup "provider" data =
       Some (VStr (if begins_with_FT transaction_id then "cbe" else "telebirr"))) /\
  begins_with_FT "" = false.
Proof.
  intro H.
  pose proof (verify_payload_lookups Kyne.brand transaction_id amount provider
                merchant_name sub_provider) as [Lk _].
  pose proof (verify_payload_lookups ShegerPay.brand transaction_id amount provider
                merchant_name sub_provider) as [Ls _].
  rewrite H in Lk, Ls.
  split; [|split; [|reflexivity]].
  - do 2 eexists. unfold after. rewrite kyne_verify_run. cbn [fst].
    split; [reflexivity|]. split; [reflexivity|]. exact Lk.
  - do 2 eexists. unfold after. rewrite shegerpay_verify_run. cbn [fst].
    split; [reflexivity|]. split; [apply shegerpay_request_payload|]. exact Ls.
Qed.

Lemma verify_auto_detects_provider_witness :
  truthy_str None = false /\
  exists req data,
    after (Kyne.verify "ft24352648751234" (NInt 100) None None None)
      (constructed Kyne.brand "sk_test_abc" (ok_with (VDict [])))
      = having_sent (constructed Kyne.brand "sk_test_abc" (ok_with (VDict []))) req /\
    payload_of (req_body req) = Some data /\
    lookup "provider" data = Some (VStr "cbe").
Proof.
  split; [reflexivity|].
  exact (proj1 (verify_auto_detects_provider "ft24352648751234" (NInt 100)
                  None None None
                  (constructed Kyne.brand "sk_test_abc" (ok_with (VDict [])))
                  eq_refl)).
Defined.

(** C8.  Of every call to [verify], in both clients: with no merchant_name
    (none given, or the empty string) the payload carries the brand's
    default merchant name, which is not empty; with no sub_provider (none
    given, or the empty string) the payload has no sub_provider key; a
    sub_provider given is carried as it is; and no entry of the payload is
    [None]. *)
Theorem verify_payload_shape (transaction_id : string) (amount : number)
    (provider merchant_name sub_provider : option string) (w : World) :
  (exists req data,
     after (Kyne.verify transaction_id amount provider merchant_name sub_provider) w
       = having_sent w req /\
     payload_of (req_body req) = Some data /\
     (truthy_str merchant_name = false ->
        lookup "merchant_name" data = Some (VStr "Kyne Verification")) /\
     (truthy_str sub_provider = false -> lookup "sub_provider" data = None) /\
     (forall s, sub_provider = Some s -> s <> "" ->
        lookup "sub_provider" data = Some (VStr s)) /\
     (forall k v, In (k, v) data -> v <> VNone)) /\
  (exists req data,
     after (ShegerPay.verify transaction_id amount provider merchant_name sub_provider) w
       = having_sent w req /\
     payload_of (req_body req) = Some data /\
     (truthy_str merchant_name = false ->
        lookup "merchant_name" data = Some (VStr "ShegerPay Verification")) /\
     (truthy_str sub_provider = false -> lookup "sub_provider" data = None) /\
     (forall s, sub_provider = Some s -> s <> "" ->
        lookup "sub_provider" data = Some (VStr s)) /\
     (forall k v, In (k, v) data -> v <> VNone)).
Proof.
  assert (S : forall s, sub_provider = Some s -> s <> "" ->
                truthy_str sub_provider = true /\ str_of sub_provider = s).
  { intros s -> Hs. cbn. split; [|reflexivity].
    destruct (String.eqb s "") eqn:E; [|reflexivity].
    apply String.eqb_eq in E. contradiction. }
  split.
  - pose proof (verify_payload_lookups Kyne.brand transaction_id amount provider
                  merchant_name sub_provider) as (_ & Lm & Ls).
    do 2 eexists. unfold after. rewrite kyne_verify_run. cbn [fst].
    split; [reflexivity|]. split; [reflexivity|]. repeat split.
    + intro H. rewrite H in Lm. exact Lm.
    + intro H. rewrite H in Ls. exact Ls.
    + intros s E Hs. destruct (S s E Hs) as [T V]. rewrite T, V in Ls. exact Ls.
    + intros k v. apply verify_payload_no_None.
  - pose proof (verify_payload_lookups ShegerPay.brand transaction_id amount provider
                  merchant_name sub_provider) as (_ & Lm & Ls).
    do 2 eexists. unfold after. rewrite shegerpay_verify_run. cbn [fst].
    split; [reflexivity|]. split; [apply shegerpay_request_payload|]. repeat split.
    + intro H. rewrite H in Lm. exact Lm.
    + intro H. rewrite H in Ls. exact Ls.
    + intros s E Hs. destruct (S s E Hs) as [T V]. rewrite T, V in Ls. exact Ls.
    + intros k v. apply verify_payload_no_None.
Qed.

(** * Construction *)

Lemma startswith_test_not_live (api_key : string) :
  startswith api_key "sk_test_" = true -> startswith api_key "sk_live_" = false.
Proof.
  unfold startswith. intro H.
  destruct (String.prefix "sk_live_" api_key) eqn:E; [|reflexivity].
  apply String.prefix_correct in H. apply String.prefix_correct in E.
  cbn [String.length] in H, E. rewrite H in E. discriminate E.
Qed.

(** C6.  The constructor of either client yields a client exactly when the
    key is non-empty and begins with sk_test_ or sk_live_; in every other
    case it raises AuthenticationError and yields no client.  Either way
    the network is as it was: nothing was sent.  The mode of the client is
    "test" exactly when the key begins with sk_test_ and "live" exactly when
    it begins with sk_live_. *)
Theorem init_accepts_recognised_keys (brand : Brand) (api_key : string)
    (base_url : option string) (timeout : Z) (n : Net) :
  fst (__init__ brand api_key base_url timeout n) = n /\
  ((exists c, snd (__init__ brand api_key base_url timeout n) = Ok c) <->
   api_key <> "" /\
   (startswith api_key "sk_test_" = true \/ startswith api_key "sk_live_" = true)) /\
  ((exists m, snd (__init__ brand api_key base_url timeout n)
              = Raise (SdkError AuthenticationError m None)) <->
   ~ (api_key <> "" /\
      (startswith api_key "sk_test_" = true \/ startswith api_key "sk_live_" = true))) /\
  (forall c, snd (__init__ brand api_key base_url timeout n) = Ok c ->
     (mode c = "test" <-> startswith api_key "sk_test_" = true) /\
     (mode c = "live" <-> startswith api_key "sk_live_" = true)).
Proof.
  assert (X : startswith api_key "sk_test_" = true ->
              startswith api_key "sk_live_" = false)
    by apply startswith_test_not_live.
  unfold __init__, ret, raise. cbn [truthy].
  destruct (String.eqb api_key "") eqn:E0; cbn [negb].
  - apply String.eqb_eq in E0. subst api_key. cbn.
    split; [reflexivity|]. split; [|split].
    + split; [intros [c H]; discriminate H | intros [H _]; now contradiction H].
    + split; [intros _ [K _]; now contradiction K | intros _; eexists; reflexivity].
    + intros c H. discriminate H.
  - apply String.eqb_neq in E0.
    destruct (startswith api_key "sk_test_") eqn:Et;
      [ rewrite (X eq_refl) | destruct (startswith api_key "sk_live_") eqn:El ];
      cbn.
    + split; [reflexivity|]. split; [|split].
      * split; [intros _; auto | intros _; eexists; reflexivity].
      * split; [intros [m H]; discriminate H | intros K; exfalso; apply K; auto].
      * intros c H. inversion H; subst c; cbn.
        split; split; intro; try reflexivity; discriminate.
    + split; [reflexivity|]. split; [|split].
      * split; [intros _; auto | intros _; eexists; reflexivity].
      * split; [intros [m H]; discriminate H | intros K; exfalso; apply K; auto].
      * intros c H. inversion H; subst c; cbn.
        split; split; intro; try reflexivity; discriminate.
    + split; [reflexivity|]. split; [|split].
      * split; [intros [c H]; discriminate H | intros [_ [K|K]]; discriminate K].
      * split; [intros _ [_ [K|K]]; discriminate K | intros _; eexists; reflexivity].
      * intros c H. discriminate H.
Qed.

(** * History *)

Lemma history_loop_records (records : list dict) (acc : list Transaction.t) :
  history_loop (map VDict records) acc = Ok (acc ++ map transaction_of records)%list.
Proof.
  revert acc. induction records as [|tx records IH]; intro acc; cbn.
  - now rewrite app_nil_r.
  - rewrite IH. unfold transaction_of at 2. now rewrite <- app_assoc.
Qed.

Lemma transaction_of_mapped (tx : dict) : mapped tx (transaction_of tx).
Proof. unfold mapped, transaction_of; cbn. repeat split; apply get_default_copied. Qed.

Lemma records_mapped (records : list dict) :
  Forall2 mapped records (map transaction_of records).
Proof.
  induction records as [|tx records IH]; cbn [map]; constructor;
    [apply transaction_of_mapped | exact IH].
Qed.

Lemma kyne_get_history_run (limit : Z) (w : World) :
  let req := kyne_request_of w "GET" "/api/v1/history" None None in
  Kyne.get_history limit w =
    (having_sent w req,
     and_then (surfaced (remote (net w) (sent (net w)) req)) history_of).
Proof.
  intro req. unfold Kyne.get_history, get_history, bind.
  rewrite kyne_request_run. fold req.
  destruct (surfaced _) as [v|e]; [|reflexivity].
  unfold lift, history_of, and_then. destruct (iter v); reflexivity.
Qed.

Lemma shegerpay_get_history_run (limit : Z) (w : World) :
  let req := shegerpay_request_of w "GET" "/api/v1/history" None None in
  ShegerPay.get_history limit w =
    (having_sent w req,
     and_then (surfaced (remote (net w) (sent (net w)) req)) history_of).
Proof.
  intro req. unfold ShegerPay.get_history, get_history, bind.
  rewrite shegerpay_request_run. fold req.
  destruct (surfaced _) as [v|e]; [|reflexivity].
  unfold lift, history_of, and_then. destruct (iter v); reflexivity.
Qed.

(** A status that is none of 400, 401, 5xx: the three tests of [_request]
    fail. *)
Ltac unlisted_status :=
  match goal with
  | |- context [?s =? 401] =>
      destruct (s =? 401) eqn:?E401; [lia|];
      destruct (s =? 400) eqn:?E400; [lia|];
      destruct (s >=? 500) eqn:?E500; [|reflexivity];
      match goal with
      | E : (_ >=? 500) = true |- _ => rewrite Z.geb_leb in E; apply Z.leb_le in E; lia
      end
  end.

Lemma surfaced_pass_through (r : Response) (v : value) :
  status_code r <> 400 -> status_code r <> 401 -> status_code r < 500 ->
  json r = Some v ->
  surfaced (Responded r) = Ok v.
Proof.
  intros H0 H1 H5 Hj. unfold surfaced. rewrite Hj. unlisted_status.
Qed.

Lemma surfaced_as_for_200 (r : Response) :
  status_code r <> 400 -> status_code r <> 401 -> status_code r < 500 ->
  surfaced (Responded r) = surfaced (Responded (mkResponse 200 (json r))).
Proof.
  intros H0 H1 H5. unfold surfaced. cbn. unlisted_status.
Qed.

(** C4, as the code has it.  When the history endpoint answers with a JSON
    array of N records (JSON objects), [get_history] of either client
    returns exactly N Transaction values, in the order of the array; each of
    the seven fields is the record's entry under that name, as it is, when
    the record has one, and [None] when it has none.  No record makes the
    call raise. *)
Theorem get_history_maps_records (limit status : Z) (records : list dict) (w : World) :
  200 <= status < 300 ->
  answers w (Responded (mkResponse status (Some (VList (map VDict records))))) ->
  (exists txs,
     outcome (Kyne.get_history limit) w = Ok txs /\
     List.length txs = List.length records /\ Forall2 mapped records txs) /\
  (exists txs,
     outcome (ShegerPay.get_history limit) w = Ok txs /\
     List.length txs = List.length records /\ Forall2 mapped records txs).
Proof.
  intros Hs Ha.
  pose proof (records_mapped records) as F.
  split; exists (map transaction_of records); unfold outcome.
  - rewrite kyne_get_history_run. cbn [snd]. rewrite Ha, (surfaced_pass_through _ (VList (map VDict records)));
      [|cbn; lia|cbn; lia|cbn; lia|reflexivity].
    unfold and_then, history_of, iter, and_then.
    rewrite history_loop_records. now rewrite length_map.
  - rewrite shegerpay_get_history_run. cbn [snd]. rewrite Ha, (surfaced_pass_through _ (VList (map VDict records)));
      [|cbn; lia|cbn; lia|cbn; lia|reflexivity].
    unfold and_then, history_of, iter, and_then.
    rewrite history_loop_records. now rewrite length_map.
Qed.

Lemma get_history_maps_records_witness :
  200 <= 200 < 300 /\
  answers (history_world Kyne.brand [full_record])
    (Responded (mkResponse 200 (Some (VList (map VDict [full_record]))))) /\
  exists txs,
    outcome (Kyne.get_history 50) (history_world Kyne.brand [full_record]) = Ok txs /\
    List.length txs = 1%nat /\ Forall2 mapped [full_record] txs.
Proof.
  assert (Hs : 200 <= 200 < 300) by lia.
  assert (Ha : answers (history_world Kyne.brand [full_record])
                 (Responded (mkResponse 200 (Some (VList (map VDict [full_record]))))))
    by (intro req; reflexivity).
  split; [exact Hs|]. split; [exact Ha|].
  exact (proj1 (get_history_maps_records 50 200 [full_record]
                  (history_world Kyne.brand [full_record]) Hs Ha)).
Defined.

(** C4, as stated, fails: a record that lacks six of its fields raises
    nothing; [get_history] of either client returns a Transaction whose
    missing fields are [None]. *)
Lemma get_history_missing_fields_become_None :
  outcome (Kyne.get_history 50) (history_world Kyne.brand [bare_record]) =
    Ok [ {| Transaction.id := VStr "tx_1";
            Transaction.provider := VNone;
            Transaction.external_id := VNone;
            Transaction.amount := VNone;
            Transaction.status := VNone;
            Transaction.created_at := VNone;
            Transaction.mode := VNone |} ] /\
  outcome (ShegerPay.get_history 50) (history_world ShegerPay.brand [bare_record]) =
    Ok [ {| Transaction.id := VStr "tx_1";
            Transaction.provider := VNone;
            Transaction.external_id := VNone;
            Transaction.amount := VNone;
            Transaction.status := VNone;
            Transaction.created_at := VNone;
            Transaction.mode := VNone |} ].
Proof. split; reflexivity. Qed.

(** C10.  [get_history] does not look at [limit]: with any two limits the
    call does the same thing in the same world, request and result alike,
    and the one request it sends is GET /api/v1/history with no query
    parameters and no payload. *)
Theorem get_history_ignores_limit (limit1 limit2 : Z) (w : World) :
  Kyne.get_history limit1 w = Kyne.get_history limit2 w /\
  ShegerPay.get_history limit1 w = ShegerPay.get_history limit2 w /\
  (exists req,
     after (Kyne.get_history limit1) w = having_sent w req /\
     req_method req = "GET" /\
     req_url req = base_url (self w) ++ "/api/v1/history" /\
     req_params req = None /\
     req_body req = FormData None) /\
  (exists req,
     after (ShegerPay.get_history limit1) w = having_sent w req /\
     req_method req = "GET" /\
     req_url req = base_url (self w) ++ "/api/v1/history" /\
     req_params req = None /\
     req_body req = FormData None).
Proof.
  split; [now rewrite !kyne_get_history_run|].
  split; [now rewrite !shegerpay_get_history_run|].
  split; eexists; unfold after.
  - rewrite kyne_get_history_run. cbn [fst]. repeat split.
  - rewrite shegerpay_get_history_run. cbn [fst]. split; [reflexivity|].
    unfold shegerpay_request_of. cbn. rewrite andb_false_r. repeat split.
Qed.

(** * Every operation is one round trip *)

Lemma kyne_quick_verify_run (transaction_id : string) (amount : number) (w : World) :
  let req := kyne_request_of w "POST" "/api/v1/quick-verify"
    (Some [ ("transaction_id", VStr transaction_id); ("amount", of_number amount) ])
    None in
  Kyne.quick_verify transaction_id amount w =
    (having_sent w req,
     and_then (surfaced (remote (net w) (sent (net w)) req))
       VerificationResult.from_response).
Proof.
  intro req. unfold Kyne.quick_verify, quick_verify, bind.
  rewrite kyne_request_run. fold req. destruct (surfaced _); reflexivity.
Qed.

Lemma shegerpay_quick_verify_run (transaction_id : string) (amount : number) (w : World) :
  let req := shegerpay_request_of w "POST" "/api/v1/quick-verify"
    (Some [ ("transaction_id", VStr transaction_id); ("amount", of_number amount) ])
    None in
  ShegerPay.quick_verify transaction_id amount w =
    (having_sent w req,
     and_then (surfaced (remote (net w) (sent (net w)) req))
       VerificationResult.from_response).
Proof.
  intro req. unfold ShegerPay.quick_verify, quick_verify, bind.
  rewrite shegerpay_request_run. fold req. destruct (surfaced _); reflexivity.
Qed.

(** The three typed operations, once [_request] is put in closed form:
    case on what it surfaced, then on what the mapping made of it. *)
Ltac typed_round_trip run_lemma request_lemma :=
  intro; unfold shaped, bind; rewrite run_lemma, request_lemma; cbn zeta;
  destruct (surfaced _) as [?v|?e]; [|reflexivity]; cbn;
  first [ destruct (VerificationResult.from_response _)
        | destruct (history_of _) ];
  reflexivity.

Lemma kyne_run_form (op : Kyne.Operation) :
  exists method path data params, forall w,
    Kyne.run op w = shaped (kyne_shape op) (Kyne._request method path data params) w.
Proof.
  destruct op; cbn [Kyne.run kyne_shape].
  - exists "POST", "/api/v1/verify",
      (Some (verify_payload Kyne.brand transaction_id amount provider
               merchant_name sub_provider)), None.
    typed_round_trip kyne_verify_run kyne_request_run.
  - exists "POST", "/api/v1/quick-verify",
      (Some [ ("transaction_id", VStr transaction_id); ("amount", of_number amount) ]),
      None.
    typed_round_trip kyne_quick_verify_run kyne_request_run.
  - exists "GET", "/api/v1/history", None, None.
    typed_round_trip kyne_get_history_run kyne_request_run.
Qed.

Lemma shegerpay_run_form (op : ShegerPay.Operation) :
  exists method path data params, forall w,
    ShegerPay.run op w =
      shaped (shegerpay_shape op)
        (if sets_json op then json_call method path data params
         else ShegerPay._request method path data params) w.
Proof.
  destruct op; cbn [ShegerPay.run shegerpay_shape sets_json].
  4: { unfold ShegerPay.get_crypto_prices. destruct (truthy_str symbol);
       do 4 eexists; intro w; reflexivity. }
  4-45: try (do 4 eexists; intro w; reflexivity).
  - exists "POST", "/api/v1/verify",
      (Some (verify_payload ShegerPay.brand transaction_id amount provider
               merchant_name sub_provider)), None.
    typed_round_trip shegerpay_verify_run shegerpay_request_run.
  - exists "POST", "/api/v1/quick-verify",
      (Some [ ("transaction_id", VStr transaction_id); ("amount", of_number amount) ]),
      None.
    typed_round_trip shegerpay_quick_verify_run shegerpay_request_run.
  - exists "GET", "/api/v1/history", None, None.
    typed_round_trip shegerpay_get_history_run shegerpay_request_run.
  - exists "GET", "/api/v1/payment-links/", None, None.
    intro w. unfold ShegerPay.returning, ShegerPay.list_payment_links, shaped, bind.
    destruct (ShegerPay._request _ _ _ _ w) as [w' [v|e]]; reflexivity.
Qed.

Lemma shaped_kyne_request (shape : value -> result Returned)
    (method path : string) (data params : option dict) (w : World) :
  let req := kyne_request_of w method path data params in
  shaped shape (Kyne._request method path data params) w =
    (having_sent w req,
     and_then (surfaced (remote (net w) (sent (net w)) req)) shape).
Proof.
  intro req. unfold shaped, bind. rewrite kyne_request_run. fold req.
  destruct (surfaced _); reflexivity.
Qed.

Lemma shaped_shegerpay_request (shape : value -> result Returned)
    (method path : string) (data params : option dict) (w : World) :
  let req := shegerpay_request_of w method path data params in
  shaped shape (ShegerPay._request method path data params) w =
    (having_sent w req,
     and_then (surfaced (remote (net w) (sent (net w)) req)) shape).
Proof.
  intro req. unfold shaped, bind. rewrite shegerpay_request_run. fold req.
  destruct (surfaced _); reflexivity.
Qed.

(** A JSON operation: the request goes out under the JSON header, and the
    header is set back only when [_request] returned. *)
Lemma shaped_json_call (shape : value -> result Returned)
    (method path : string) (data params : option dict) (w : World) :
  let w1 := with_content_type w application_json in
  let req := shegerpay_request_of w1 method path data params in
  let s := surfaced (remote (net w) (sent (net w)) req) in
  shaped shape (json_call method path data params) w =
    (match s with
     | Ok _ => with_content_type (having_sent w1 req) form_urlencoded
     | Raise _ => having_sent w1 req
     end,
     and_then s shape).
Proof.
  intros w1 req s. unfold shaped, json_call, bind.
  change (set_header "Content-Type" application_json w) with (w1, @Ok unit tt).
  cbn iota. rewrite shegerpay_request_run. fold req.
  change (remote (net w1) (sent (net w1)) req) with (remote (net w) (sent (net w)) req).
  fold s. destruct s; reflexivity.
Qed.

(** An operation of [kyne.py] sends one request under the session headers
    as they are, leaves the client as it was, and hands back what
    [_request] surfaced, in the operation's shape. *)
Lemma kyne_run_effect (op : Kyne.Operation) (w : World) :
  exists req,
    req_headers req = session_headers (self w) /\
    Kyne.run op w =
      (having_sent w req,
       and_then (surfaced (remote (net w) (sent (net w)) req)) (kyne_shape op)).
Proof.
  destruct (kyne_run_form op) as (method & path & data & params & E).
  exists (kyne_request_of w method path data params).
  split; [reflexivity|]. rewrite E. apply shaped_kyne_request.
Qed.

(** An operation of [shegerpay.py] sends one request; one of the JSON family
    sends it under the JSON header, which stays when the call raised. *)
Lemma shegerpay_run_effect (op : ShegerPay.Operation) (w : World) :
  let w1 := if sets_json op then with_content_type w application_json else w in
  exists method path data params,
    let req := shegerpay_request_of w1 method path data params in
    ShegerPay.run op w =
      (match surfaced (remote (net w) (sent (net w)) req) with
       | Ok _ =>
           if sets_json op
           then with_content_type (having_sent w1 req) form_urlencoded
           else having_sent w1 req
       | Raise _ => having_sent w1 req
       end,
       and_then (surfaced (remote (net w) (sent (net w)) req)) (shegerpay_shape op)).
Proof.
  destruct (shegerpay_run_form op) as (method & path & data & params & E).
  exists method, path, data, params.
  destruct (sets_json op); cbn zeta.
  - rewrite E. apply shaped_json_call.
  - rewrite E, shaped_shegerpay_request.
    destruct (surfaced _); reflexivity.
Qed.

Lemma kyne_outcome (op : Kyne.Operation) (w : World) (o : Outcome) :
  answers w o ->
  outcome (Kyne.run op) w = and_then (surfaced o) (kyne_shape op).
Proof.
  intro H. destruct (kyne_run_effect op w) as (req & _ & E).
  unfold outcome. now rewrite E, H.
Qed.

Lemma shegerpay_outcome (op : ShegerPay.Operation) (w : World) (o : Outcome) :
  answers w o ->
  outcome (ShegerPay.run op) w = and_then (surfaced o) (shegerpay_shape op).
Proof.
  intro H. destruct (shegerpay_run_effect op w) as (method & path & data & params & E).
  unfold outcome. cbn zeta in E. now rewrite E, H.
Qed.

(** * Error classification *)

(** C2, as the code has it.  Of every operation of either client: a
    timeout of the transport (a connect timeout included) leaves the
    operation as one error of the base class with the message "Request timed
    out", a connection failure as one error of the base class with the
    message "Connection error", both without a status code; another
    exception of the transport is not caught and leaves as it is. *)
Theorem transport_faults_surface_as_base_error
    (kop : Kyne.Operation) (sop : ShegerPay.Operation) (w : World) (f : Fault) :
  answers w (Failed f) ->
  let expected :=
    if is_Timeout f then SdkError BaseError (VStr "Request timed out") None
    else if is_ConnectionError f then SdkError BaseError (VStr "Connection error") None
    else RequestException f in
  outcome (Kyne.run kop) w = Raise expected /\
  outcome (ShegerPay.run sop) w = Raise expected.
Proof.
  intros H expected.
  rewrite (kyne_outcome kop w _ H), (shegerpay_outcome sop w _ H).
  subst expected. cbn.
  destruct (is_Timeout f); [split; reflexivity|].
  destruct (is_ConnectionError f); split; reflexivity.
Qed.

Lemma transport_faults_surface_as_base_error_witness :
  answers (constructed Kyne.brand "sk_test_abc" (Failed ReadTimeout)) (Failed ReadTimeout) /\
  outcome (Kyne.run (Kyne.QuickVerify "FT24352648751234" (NInt 100)))
    (constructed Kyne.brand "sk_test_abc" (Failed ReadTimeout))
    = Raise (SdkError BaseError (VStr "Request timed out") None).
Proof.
  assert (H : answers (constructed Kyne.brand "sk_test_abc" (Failed ReadTimeout))
                (Failed ReadTimeout)) by (intro req; reflexivity).
  split; [exact H|].
  exact (proj1 (transport_faults_surface_as_base_error
                  (Kyne.QuickVerify "FT24352648751234" (NInt 100))
                  ShegerPay.GetUsage _ ReadTimeout H)).
Defined.

(** C2, as stated, fails: a timeout and a connection failure both leave
    [get_history] as an error of the catch-all base class, told apart by
    the message alone, and a redirect loop leaves it as the raw exception of
    the transport. *)
Lemma timeout_is_not_a_kind_of_its_own :
  outcome (Kyne.run (Kyne.GetHistory 50))
    (constructed Kyne.brand "sk_test_abc" (Failed ReadTimeout))
    = Raise (SdkError BaseError (VStr "Request timed out") None) /\
  outcome (Kyne.run (Kyne.GetHistory 50))
    (constructed Kyne.brand "sk_test_abc" (Failed ConnectionFailure))
    = Raise (SdkError BaseError (VStr "Connection error") None) /\
  outcome (ShegerPay.run ShegerPay.GetWalletBalance)
    (constructed ShegerPay.brand "sk_test_abc" (Failed ReadTimeout))
    = Raise (SdkError BaseError (VStr "Request timed out") None) /\
  outcome (ShegerPay.run ShegerPay.GetWalletBalance)
    (constructed ShegerPay.brand "sk_test_abc" (Failed TooManyRedirects))
    = Raise (RequestException TooManyRedirects).
Proof. repeat split. Qed.

(** C3, as the code has it.  Of every operation of either client: a 401
    response leaves it as AuthenticationError whatever the body, and a 400
    response whose body decodes to a JSON object leaves it as
    ValidationError with the body's detail entry as message when there is
    one and "Validation error" when there is none. *)
Theorem status_401_and_400_are_classified
    (kop : Kyne.Operation) (sop : ShegerPay.Operation) (w : World) (r : Response) :
  answers w (Responded r) ->
  (status_code r = 401 ->
     outcome (Kyne.run kop) w =
       Raise (SdkError AuthenticationError (VStr "Invalid API key") (Some 401)) /\
     outcome (ShegerPay.run sop) w =
       Raise (SdkError AuthenticationError (VStr "Invalid API key") (Some 401))) /\
  (status_code r = 400 ->
     forall d, json r = Some (VDict d) ->
     exists message,
       copied d "detail" (VStr "Validation error") message /\
       outcome (Kyne.run kop) w = Raise (SdkError ValidationError message (Some 400)) /\
       outcome (ShegerPay.run sop) w = Raise (SdkError ValidationError message (Some 400))).
Proof.
  intro H.
  rewrite (kyne_outcome kop w _ H), (shegerpay_outcome sop w _ H).
  unfold surfaced. split.
  - intros ->. cbn. split; reflexivity.
  - intros -> d ->. cbn. eexists. split; [apply get_default_copied|].
    split; reflexivity.
Qed.

Lemma status_401_and_400_are_classified_witness :
  answers
    (constructed Kyne.brand "sk_test_abc"
       (Responded (mkResponse 400 (Some (VDict [ ("detail", VStr "Amount mismatch") ])))))
    (Responded (mkResponse 400 (Some (VDict [ ("detail", VStr "Amount mismatch") ])))) /\
  exists message,
    copied [ ("detail", VStr "Amount mismatch") ] "detail" (VStr "Validation error")
      message /\
    outcome (Kyne.run (Kyne.GetHistory 50))
      (constructed Kyne.brand "sk_test_abc"
         (Responded (mkResponse 400 (Some (VDict [ ("detail", VStr "Amount mismatch") ])))))
      = Raise (SdkError ValidationError message (Some 400)) /\
    outcome (ShegerPay.run ShegerPay.GetUsage)
      (constructed Kyne.brand "sk_test_abc"
         (Responded (mkResponse 400 (Some (VDict [ ("detail", VStr "Amount mismatch") ])))))
      = Raise (SdkError ValidationError message (Some 400)).
Proof.
  assert (H : answers
    (constructed Kyne.brand "sk_test_abc"
       (Responded (mkResponse 400 (Some (VDict [ ("detail", VStr "Amount mismatch") ])))))
    (Responded (mkResponse 400 (Some (VDict [ ("detail", VStr "Amount mismatch") ])))))
    by (intro req; reflexivity).
  split; [exact H|].
  exact (proj2 (status_401_and_400_are_classified (Kyne.GetHistory 50)
                  ShegerPay.GetUsage _ _ H) eq_refl _ eq_refl).
Defined.

(** C3, as stated, fails: a 400 response whose body is not a JSON document
    leaves the operation as the decoder's exception, and one whose body is a
    JSON array as an attribute error; neither is a ValidationError. *)
Lemma status_400_with_undecodable_body :
  outcome (Kyne.run (Kyne.QuickVerify "FT24352648751234" (NInt 100)))
    (constructed Kyne.brand "sk_test_abc" (Responded (mkResponse 400 None)))
    = Raise JSONDecodeError /\
  outcome (ShegerPay.run (ShegerPay.QuickVerify "FT24352648751234" (NInt 100)))
    (constructed ShegerPay.brand "sk_test_abc" (Responded (mkResponse 400 None)))
    = Raise JSONDecodeError /\
  outcome (Kyne.run (Kyne.QuickVerify "FT24352648751234" (NInt 100)))
    (constructed Kyne.brand "sk_test_abc"
       (Responded (mkResponse 400 (Some (VList [ VStr "bad request" ])))))
    = Raise AttributeError.
Proof. repeat split. Qed.

Lemma history_loop_raises (items : list value) (acc : list Transaction.t) (e : exn) :
  history_loop items acc = Raise e -> e = AttributeError.
Proof.
  revert acc. induction items as [|tx items IH]; intro acc; cbn; [discriminate|].
  destruct tx; try (intro H; now inversion H). apply IH.
Qed.

Lemma history_of_raises_no_sdk_error (v : value) (cls : ErrorClass)
    (message : value) (code : option Z) :
  history_of v <> Raise (SdkError cls message code).
Proof.
  unfold history_of. intro H.
  destruct v; cbn in H; try discriminate H;
    apply history_loop_raises in H; discriminate H.
Qed.

Lemma kyne_shape_raises_no_sdk_error (op : Kyne.Operation) (v : value)
    (cls : ErrorClass) (message : value) (code : option Z) :
  kyne_shape op v <> Raise (SdkError cls message code).
Proof.
  pose proof (history_of_raises_no_sdk_error v cls message code) as N.
  destruct op; cbn; try (destruct v; discriminate).
  destruct (history_of v); cbn; [discriminate|].
  intro H. apply N. now inversion H.
Qed.

Lemma shegerpay_shape_raises_no_sdk_error (op : ShegerPay.Operation) (v : value)
    (cls : ErrorClass) (message : value) (code : option Z) :
  shegerpay_shape op v <> Raise (SdkError cls message code).
Proof.
  pose proof (history_of_raises_no_sdk_error v cls message code) as N.
  destruct op; cbn; try discriminate; try (destruct v; discriminate).
  destruct (history_of v); cbn; [discriminate|].
  intro H. apply N. now inversion H.
Qed.

(** C7.  A response with a status from 402 to 499 is treated by the request
    layer of either client as a success: every operation ends as it does on
    a 200 response with the same body, and no error of the SDK is raised
    for the status; when the body decodes, [_request] returns the decoded
    body as it is and every operation hands it back in its own shape. *)
Theorem unlisted_4xx_passes_through
    (kop : Kyne.Operation) (sop : ShegerPay.Operation)
    (method path : string) (data params : option dict)
    (w : World) (r : Response) :
  answers w (Responded r) ->
  402 <= status_code r <= 499 ->
  (forall w200,
     answers w200 (Responded (mkResponse 200 (json r))) ->
     outcome (Kyne.run kop) w = outcome (Kyne.run kop) w200 /\
     outcome (ShegerPay.run sop) w = outcome (ShegerPay.run sop) w200) /\
  (forall cls message code,
     outcome (Kyne.run kop) w <> Raise (SdkError cls message code) /\
     outcome (ShegerPay.run sop) w <> Raise (SdkError cls message code)) /\
  (forall v,
     json r = Some v ->
     outcome (Kyne._request method path data params) w = Ok v /\
     outcome (ShegerPay._request method path data params) w = Ok v /\
     outcome (Kyne.run kop) w = kyne_shape kop v /\
     outcome (ShegerPay.run sop) w = shegerpay_shape sop v).
Proof.
  intros H Hs.
  assert (S : surfaced (Responded r) = surfaced (Responded (mkResponse 200 (json r))))
    by (apply surfaced_as_for_200; lia).
  rewrite (kyne_outcome kop w _ H), (shegerpay_outcome sop w _ H).
  split; [|split].
  - intros w200 H2.
    now rewrite (kyne_outcome kop w200 _ H2), (shegerpay_outcome sop w200 _ H2), S.
  - intros cls message code. rewrite S. unfold surfaced. cbn.
    destruct (json r) as [v|]; cbn; [|split; discriminate].
    split; [apply kyne_shape_raises_no_sdk_error
           |apply shegerpay_shape_raises_no_sdk_error].
  - intros v Hj. unfold outcome at 1 2.
    rewrite kyne_request_run, shegerpay_request_run. cbn [snd].
    rewrite !H, (surfaced_pass_through r v); [|lia|lia|lia|exact Hj].
    repeat split.
Qed.

Lemma unlisted_4xx_passes_through_witness :
  answers
    (constructed Kyne.brand "sk_test_abc"
       (Responded (mkResponse 404 (Some (VDict [ ("detail", VStr "Not Found") ])))))
    (Responded (mkResponse 404 (Some (VDict [ ("detail", VStr "Not Found") ])))) /\
  402 <= 404 <= 499 /\
  outcome (Kyne.run (Kyne.Verify "FT24352648751234" (NInt 100) None None None))
    (constructed Kyne.brand "sk_test_abc"
       (Responded (mkResponse 404 (Some (VDict [ ("detail", VStr "Not Found") ])))))
  = Ok (RVerification
          {| VerificationResult.valid := VBool false;
             VerificationResult.status := VStr "unknown";
             VerificationResult.provider := VNone;
             VerificationResult.transaction_id := VNone;
             VerificationResult.amount := VNone;
             VerificationResult.reason := VNone;
             VerificationResult.mode := VNone;
             VerificationResult.payer := VNone |}).
Proof.
  assert (H : answers
    (constructed Kyne.brand "sk_test_abc"
       (Responded (mkResponse 404 (Some (VDict [ ("detail", VStr "Not Found") ])))))
    (Responded (mkResponse 404 (Some (VDict [ ("detail", VStr "Not Found") ])))))
    by (intro req; reflexivity).
  assert (Hs : 402 <= 404 <= 499) by lia.
  split; [exact H|]. split; [exact Hs|].
  exact (proj1 (proj2 (proj2
    (proj2 (proj2
       (unlisted_4xx_passes_through
          (Kyne.Verify "FT24352648751234" (NInt 100) None None None)
          ShegerPay.GetUsage "GET" "/" None None _ _ H Hs))
       _ eq_refl)))).
Defined.

(** * The session's Content-Type across a call *)

Lemma setitem_back (h : dict) (k : string) (v1 v2 : value) :
  lookup k h = Some v2 -> setitem (setitem h k v1) k v2 = h.
Proof.
  induction h as [|[k' v'] h IH]; cbn; [discriminate|].
  destruct (String.eqb k k') eqn:E; cbn.
  - rewrite String.eqb_refl. apply String.eqb_eq in E. intro H.
    inversion H; subst. reflexivity.
  - rewrite E. intro H. now rewrite (IH H).
Qed.

Lemma lookup_setitem (h : dict) (k : string) (v : value) :
  lookup k (setitem h k v) = Some v.
Proof.
  induction h as [|[k' v'] h IH]; cbn.
  - now rewrite String.eqb_refl.
  - destruct (String.eqb k k') eqn:E; cbn.
    + now rewrite String.eqb_refl.
    + now rewrite E.
Qed.

Lemma content_type_set (w : World) (v : string) :
  content_type (with_content_type w v) = VStr v.
Proof.
  unfold content_type, with_content_type, get, get_default. cbn.
  now rewrite lookup_setitem.
Qed.

(** Setting the header to JSON and back gives the client there was, when
    the header was form-encoded to begin with. *)
Lemma with_content_type_back (w : World) (req : HttpRequest) :
  lookup "Content-Type" (session_headers (self w)) = Some (VStr form_urlencoded) ->
  self (with_content_type
          (having_sent (with_content_type w application_json) req)
          form_urlencoded) = self w.
Proof.
  intro H. unfold with_content_type, having_sent. cbn.
  rewrite (setitem_back _ _ _ _ H). now destruct w as [[]].
Qed.

(** X22.  An operation of [kyne.py] never touches the client.  An
    operation of [shegerpay.py] applies its encoding through the session's
    Content-Type: on a client whose Content-Type is form-encoded, as the
    constructor leaves it, the one request of the call goes out under
    application/json with its payload as JSON for the rich-resource family,
    and under the form-encoded header with its payload as form data for the
    others; the client is as before after every operation of the simple
    family, and after every operation of the rich-resource family that
    returned. *)
Theorem content_type_per_call_when_calls_return
    (kop : Kyne.Operation) (sop : ShegerPay.Operation) (w : World) :
  lookup "Content-Type" (session_headers (self w)) = Some (VStr form_urlencoded) ->
  self (after (Kyne.run kop) w) = self w /\
  (exists req,
     sent (net (after (ShegerPay.run sop) w)) = (sent (net w) ++ [req])%list /\
     get (req_headers req) "Content-Type" =
       VStr (if sets_json sop then application_json else form_urlencoded) /\
     (sets_json sop = false -> exists data, req_body req = FormData data) /\
     (sets_json sop = true ->
        forall kv d, payload_of (req_body req) = Some (kv :: d) ->
                     req_body req = JsonData (kv :: d))) /\
  (sets_json sop = false -> self (after (ShegerPay.run sop) w) = self w) /\
  (forall x, outcome (ShegerPay.run sop) w = Ok x ->
     self (after (ShegerPay.run sop) w) = self w).
Proof.
  intro H. split; [|split; [|split]].
  - destruct (kyne_run_effect kop w) as (req & _ & E).
    unfold after. now rewrite E.
  - destruct (shegerpay_run_effect sop w) as (method & path & data & params & E).
    cbn zeta in E. unfold after. rewrite E. cbn [fst]. clear E.
    destruct (sets_json sop).
    + eexists. split; [destruct (surfaced _); reflexivity|].
      split; [apply (content_type_set w application_json)|].
      split; [discriminate|]. intros _ kv d.
      unfold shegerpay_request_of. cbn [req_body].
      fold (content_type (with_content_type w application_json)).
      rewrite content_type_set. cbn.
      destruct data as [[|kv' d']|]; cbn; intro P; inversion P. reflexivity.
    + eexists. split; [destruct (surfaced _); reflexivity|].
      split; [|split; [|discriminate]].
      * cbn. unfold get, get_default. now rewrite H.
      * intros _. unfold shegerpay_request_of. cbn [req_body].
        unfold get, get_default. rewrite H. cbn. eexists. reflexivity.
  - intro J. destruct (shegerpay_run_effect sop w) as (method & path & data & params & E).
    cbn zeta in E. rewrite J in E. unfold after. rewrite E. cbn [fst].
    destruct (surfaced _); reflexivity.
  - intros x. destruct (shegerpay_run_effect sop w) as (method & path & data & params & E).
    cbn zeta in E. unfold after, outcome. rewrite E. cbn [fst snd].
    destruct (surfaced _) as [v|e]; [|discriminate]. intros _.
    destruct (sets_json sop); [|reflexivity].
    now apply with_content_type_back.
Qed.

Lemma content_type_per_call_when_calls_return_witness :
  lookup "Content-Type"
    (session_headers (self (constructed ShegerPay.brand "sk_test_abc" (ok_with (VDict [])))))
    = Some (VStr form_urlencoded) /\
  self (after (ShegerPay.run crypto_payment)
          (constructed ShegerPay.brand "sk_test_abc" (ok_with (VDict []))))
    = self (constructed ShegerPay.brand "sk_test_abc" (ok_with (VDict []))).
Proof.
  split; [reflexivity|].
  exact (proj2 (proj2 (proj2
    (content_type_per_call_when_calls_return (Kyne.GetHistory 50) crypto_payment
       (constructed ShegerPay.brand "sk_test_abc" (ok_with (VDict []))) eq_refl)))
    (RValue (VDict [])) eq_refl).
Defined.

(** C1.  The claim holds of every call that returns, and the code breaks
    it on the raising path: [create_crypto_payment] sets the session's
    Content-Type to application/json and sets it back only after [_request]
    has returned, so when the service answers 401 the call raises
    AuthenticationError and leaves application/json in the session; the
    session headers after the call are not those before it, and the
    [verify] that follows on the same client sends its payload as JSON
    under the JSON header instead of form-encoded. *)
Lemma raised_json_call_leaves_json_header :
  content_type refusing_world = VStr form_urlencoded /\
  outcome (ShegerPay.run crypto_payment) refusing_world =
    Raise (SdkError AuthenticationError (VStr "Invalid API key") (Some 401)) /\
  content_type after_refusal = VStr application_json /\
  map (fun req => (req_url req, get (req_headers req) "Content-Type", req_body req))
    (sent (net (after
       (ShegerPay.run (ShegerPay.Verify "FT24352648751234" (NInt 100) None None None))
       after_refusal))) =
  [ ("https://api.shegerpay.com/api/v1/crypto/generate-intent",
     VStr application_json,
     JsonData [ ("amount_usd", VInt 50); ("currency", VStr "USDT");
                ("wallet_address", VStr "TJCnKsPa7y5okkXvQAidZBzqx3QyQ6sxMW");
                ("chain", VStr "TRON") ]);
    ("https://api.shegerpay.com/api/v1/verify",
     VStr application_json,
     JsonData [ ("provider", VStr "cbe");
                ("transaction_id", VStr "FT24352648751234");
                ("amount", VInt 100);
                ("merchant_name", VStr "ShegerPay Verification") ]) ].
Proof. repeat split. Qed.

(** * One round trip per call, on an unchanged client *)

Lemma lookup_setitem_other (h : dict) (k k' : string) (v : value) :
  k' <> k -> lookup k' (setitem h k v) = lookup k' h.
Proof.
  intro N. induction h as [|[k0 v0] h IH]; cbn.
  - destruct (String.eqb k' k) eqn:E; [|reflexivity].
    apply String.eqb_eq in E. contradiction.
  - destruct (String.eqb k k0) eqn:E; cbn.
    + apply String.eqb_eq in E. subst k0.
      destruct (String.eqb k' k) eqn:E'; [|reflexivity].
      apply String.eqb_eq in E'. contradiction.
    + now rewrite IH.
Qed.

(** X1.  Whatever comes back, an operation of either client sends exactly
    one request: there is no retry and no second call.  The request goes to
    the client's base URL followed by a path, under the client's timeout,
    and the remote service is the one there was. *)
Theorem every_operation_is_one_request
    (kop : Kyne.Operation) (sop : ShegerPay.Operation) (w : World) :
  (exists req path,
     sent (net (after (Kyne.run kop) w)) = (sent (net w) ++ [req])%list /\
     remote (net (after (Kyne.run kop) w)) = remote (net w) /\
     req_url req = base_url (self w) ++ path /\
     req_timeout req = timeout (self w)) /\
  (exists req path,
     sent (net (after (ShegerPay.run sop) w)) = (sent (net w) ++ [req])%list /\
     remote (net (after (ShegerPay.run sop) w)) = remote (net w) /\
     req_url req = base_url (self w) ++ path /\
     req_timeout req = timeout (self w)).
Proof.
  split.
  - destruct (kyne_run_form kop) as (method & path & data & params & E).
    exists (kyne_request_of w method path data params), path.
    unfold after. rewrite E, shaped_kyne_request. repeat split.
  - destruct (shegerpay_run_effect sop w) as (method & path & data & params & E).
    cbn zeta in E. unfold after. rewrite E. cbn [fst].
    exists (shegerpay_request_of
              (if sets_json sop then with_content_type w application_json else w)
              method path data params), path.
    destruct (surfaced _), (sets_json sop); cbn; repeat split.
Qed.

(** X2.  No operation of [shegerpay.py], returning or raising, changes the
    client's key, base URL, timeout or mode, nor any session header other
    than Content-Type. *)
Theorem operations_keep_the_configuration (sop : ShegerPay.Operation) (w : World) :
  let w' := after (ShegerPay.run sop) w in
  api_key (self w') = api_key (self w) /\
  base_url (self w') = base_url (self w) /\
  timeout (self w') = timeout (self w) /\
  mode (self w') = mode (self w) /\
  (forall k, k <> "Content-Type" ->
     lookup k (session_headers (self w')) = lookup k (session_headers (self w))).
Proof.
  destruct (shegerpay_run_effect sop w) as (method & path & data & params & E).
  cbn zeta in E. cbn zeta. unfold after. rewrite E. cbn [fst]. clear E.
  destruct (surfaced _), (sets_json sop); cbn; repeat split;
    intros k N; now rewrite ?(lookup_setitem_other _ _ _ _ N).
Qed.

Lemma json_shape_is_the_body (sop : ShegerPay.Operation) (v : value) :
  sets_json sop = true -> shegerpay_shape sop v = Ok (RValue v).
Proof. destruct sop; cbn; intro H; try discriminate H; reflexivity. Qed.

(** X4.  What an operation of [shegerpay.py] leaves in the session's
    Content-Type does not depend on what was there: a rich-resource
    operation that returns leaves the form-encoded type, one that raises
    leaves application/json, and any other operation leaves what it
    found. *)
Theorem content_type_left_by_an_operation (sop : ShegerPay.Operation) (w : World) :
  content_type (after (ShegerPay.run sop) w) =
    if sets_json sop then
      match outcome (ShegerPay.run sop) w with
      | Ok _ => VStr form_urlencoded
      | Raise _ => VStr application_json
      end
    else content_type w.
Proof.
  destruct (shegerpay_run_effect sop w) as (method & path & data & params & E).
  cbn zeta in E. unfold after, outcome. rewrite E. cbn [fst snd]. clear E.
  destruct (sets_json sop) eqn:J.
  - destruct (surfaced _) as [v|e]; cbn [and_then].
    + rewrite (json_shape_is_the_body sop v J).
      apply (content_type_set (having_sent (with_content_type w application_json) _)).
    + apply (content_type_set w application_json).
  - destruct (surfaced _); reflexivity.
Qed.

(** * A client over a sequence of calls *)

Lemma init_client (brand : Brand) (key : string) (base : option string)
    (seconds : Z) (n : Net) (c : Client) :
  snd (__init__ brand key base seconds n) = Ok c ->
  c = {| api_key := key;
         base_url := rstrip_slash (or_default base (DEFAULT_BASE_URL brand));
         timeout := seconds;
         mode := if startswith key "sk_test_" then "test" else "live";
         session_headers :=
           [ ("User-Agent", VStr (user_agent brand));
             ("Accept-Encoding", VStr "gzip, deflate");
             ("Accept", VStr "*/*");
             ("Connection", VStr "keep-alive");
             ("Authorization", VStr ("Bearer " ++ key));
             ("Content-Type", VStr form_urlencoded) ] |}.
Proof.
  unfold __init__.
  destruct (negb (truthy (VStr key))); [discriminate|].
  destruct (negb (startswith key "sk_test_" || startswith key "sk_live_"));
    [discriminate|].
  cbn. intro H. now inversion H.
Qed.

(** One step of a sequence: the request that goes out and what the call
    leaves of the client. *)
Lemma shegerpay_step (sop : ShegerPay.Operation) (w : World) :
  let w' := after (ShegerPay.run sop) w in
  exists req path,
    sent (net w') = (sent (net w) ++ [req])%list /\
    remote (net w') = remote (net w) /\
    req_url req = base_url (self w) ++ path /\
    req_timeout req = timeout (self w) /\
    (forall k, k <> "Content-Type" ->
       lookup k (req_headers req) = lookup k (session_headers (self w))) /\
    base_url (self w') = base_url (self w) /\
    timeout (self w') = timeout (self w) /\
    (forall k, k <> "Content-Type" ->
       lookup k (session_headers (self w')) = lookup k (session_headers (self w))).
Proof.
  destruct (shegerpay_run_effect sop w) as (method & path & data & params & E).
  cbn zeta in E. cbn zeta. unfold after. rewrite E. cbn [fst]. clear E.
  exists (shegerpay_request_of
            (if sets_json sop then with_content_type w application_json else w)
            method path data params), path.
  destruct (surfaced _), (sets_json sop); cbn; repeat split;
    intros k N; now rewrite ?(lookup_setitem_other _ _ _ _ N).
Qed.

Lemma run_all_log (ops : list ShegerPay.Operation) (w : World) :
  exists reqs,
    sent (net (run_all ops w)) = (sent (net w) ++ reqs)%list /\
    List.length reqs = List.length ops /\
    Forall (fun req =>
              (exists path, req_url req = base_url (self w) ++ path) /\
              req_timeout req = timeout (self w) /\
              forall k, k <> "Content-Type" ->
                lookup k (req_headers req) = lookup k (session_headers (self w)))
           reqs.
Proof.
  revert w. induction ops as [|op ops IH]; intro w; cbn [run_all].
  - exists []. rewrite app_nil_r. repeat split. constructor.
  - destruct (shegerpay_step op w) as (req & path & S & _ & U & T & Hh & B & T' & H').
    cbn zeta in *.
    destruct (IH (after (ShegerPay.run op) w)) as (reqs & L & N & F).
    exists (req :: reqs). rewrite L, S, <- app_assoc. cbn.
    split; [reflexivity|]. split; [now rewrite N|].
    constructor.
    + split; [now exists path|]. split; [exact T|exact Hh].
    + eapply Forall_impl; [|exact F]. cbn.
      intros r ((p & Hu) & Ht & Hk). rewrite B in Hu. rewrite T' in Ht.
      split; [now exists p|]. split; [exact Ht|].
      intros k Nk. now rewrite (Hk k Nk), (H' k Nk).
Qed.

(** X3.  On a client the constructor of [shegerpay.py] made, any sequence of
    operations, raising or not, sends exactly one request per operation, and
    every one of them carries Authorization "Bearer <api_key>" and the SDK's
    User-Agent, goes to the client's base URL followed by a path, and is
    sent under the timeout given to the constructor. *)
Theorem every_request_carries_the_bearer (key : string) (base : option string)
    (seconds : Z) (n : Net) (c : Client) (ops : list ShegerPay.Operation) :
  snd (ShegerPay.__init__ key base seconds n) = Ok c ->
  sent n = [] ->
  List.length (sent (net (run_all ops (mkWorld c n)))) = List.length ops /\
  Forall (fun req =>
            lookup "Authorization" (req_headers req) = Some (VStr ("Bearer " ++ key)) /\
            lookup "User-Agent" (req_headers req) = Some (VStr "ShegerPay-Python-SDK/1.0") /\
            (exists path, req_url req = base_url c ++ path) /\
            req_timeout req = seconds)
         (sent (net (run_all ops (mkWorld c n)))).
Proof.
  intros I E. apply init_client in I.
  destruct (run_all_log ops (mkWorld c n)) as (reqs & L & N & F).
  cbn [net self] in L, F. rewrite E in L. cbn in L. rewrite L.
  split; [exact N|].
  eapply Forall_impl; [|exact F]. cbn.
  intros r (Hu & Ht & Hk).
  rewrite (Hk "Authorization"), (Hk "User-Agent") by discriminate.
  subst c. cbn in *. repeat split; assumption.
Qed.

Lemma every_request_carries_the_bearer_witness :
  snd (ShegerPay.__init__ "sk_test_abc" None 30
         (mkNet [] (fun _ _ => Responded (mkResponse 401 None))))
    = Ok (self refusing_world) /\
  List.length
    (sent (net (run_all [crypto_payment; ShegerPay.GetUsage]
                  (mkWorld (self refusing_world)
                     (mkNet [] (fun _ _ => Responded (mkResponse 401 None)))))))
    = 2%nat.
Proof.
  split; [reflexivity|].
  exact (proj1 (every_request_carries_the_bearer "sk_test_abc" None 30
                  (mkNet [] (fun _ _ => Responded (mkResponse 401 None)))
                  (self refusing_world) [crypto_payment; ShegerPay.GetUsage]
                  eq_refl eq_refl)).
Defined.

(** * What comes back *)

Lemma surfaced_5xx (r : Response) :
  500 <= status_code r ->
  surfaced (Responded r) =
    Raise (SdkError BaseError (VStr "Server error") (Some (status_code r))).
Proof.
  intro H. unfold surfaced.
  destruct (status_code r =? 401) eqn:E1; [lia|].
  destruct (status_code r =? 400) eqn:E2; [lia|].
  destruct (status_code r >=? 500) eqn:E5; [reflexivity|].
  rewrite Z.geb_leb in E5. apply Z.leb_gt in E5. lia.
Qed.

(** X5.  A response with a status of 500 or more leaves every operation of
    either client as one error of the base class with the message "Server
    error" and the status it came with; the body is not looked at. *)
Theorem server_errors_carry_their_status
    (kop : Kyne.Operation) (sop : ShegerPay.Operation) (w : World) (r : Response) :
  answers w (Responded r) ->
  500 <= status_code r ->
  outcome (Kyne.run kop) w =
    Raise (SdkError BaseError (VStr "Server error") (Some (status_code r))) /\
  outcome (ShegerPay.run sop) w =
    Raise (SdkError BaseError (VStr "Server error") (Some (status_code r))).
Proof.
  intros H S.
  rewrite (kyne_outcome kop w _ H), (shegerpay_outcome sop w _ H), (surfaced_5xx r S).
  split; reflexivity.
Qed.

Lemma server_errors_carry_their_status_witness :
  answers (constructed Kyne.brand "sk_live_abc" (Responded (mkResponse 503 None)))
    (Responded (mkResponse 503 None)) /\
  500 <= 503 /\
  outcome (Kyne.run (Kyne.GetHistory 50))
    (constructed Kyne.brand "sk_live_abc" (Responded (mkResponse 503 None)))
    = Raise (SdkError BaseError (VStr "Server error") (Some 503)).
Proof.
  assert (H : answers (constructed Kyne.brand "sk_live_abc" (Responded (mkResponse 503 None)))
                (Responded (mkResponse 503 None))) by (intro req; reflexivity).
  assert (S : 500 <= 503) by lia.
  split; [exact H|]. split; [exact S|].
  exact (proj1 (server_errors_carry_their_status (Kyne.GetHistory 50)
                  ShegerPay.GetUsage _ (mkResponse 503 None) H S)).
Defined.

Lemma surfaced_ok (o : Outcome) (v : value) :
  surfaced o = Ok v ->
  exists r, o = Responded r /\ json r = Some v /\
            status_code r <> 400 /\ status_code r <> 401 /\ status_code r < 500.
Proof.
  destruct o as [r|f]; cbn.
  - destruct (status_code r =? 401) eqn:E1; [discriminate|].
    destruct (status_code r =? 400) eqn:E4.
    + destruct (json r) as [[| | | | | |]|]; discriminate.
    + destruct (status_code r >=? 500) eqn:E5; [discriminate|].
      destruct (json r) as [v'|] eqn:J; [|discriminate].
      intro H. inversion H; subst v'. exists r.
      rewrite Z.geb_leb in E5. apply Z.leb_gt in E5.
      apply Z.eqb_neq in E1. apply Z.eqb_neq in E4. auto.
  - destruct (is_Timeout f); [discriminate|].
    destruct (is_ConnectionError f); discriminate.
Qed.

(** X6.  An operation of [shegerpay.py] returns only when a response came
    back (never after a fault of the transport), its status is none of 400,
    401 and 500 or more, and its body decoded; what is returned is then the
    operation's shape of that body. *)
Theorem an_operation_returns_only_a_decoded_body
    (sop : ShegerPay.Operation) (w : World) (o : Outcome) (x : Returned) :
  answers w o ->
  outcome (ShegerPay.run sop) w = Ok x ->
  exists r v,
    o = Responded r /\ json r = Some v /\
    status_code r <> 400 /\ status_code r <> 401 /\ status_code r < 500 /\
    shegerpay_shape sop v = Ok x.
Proof.
  intros H. rewrite (shegerpay_outcome sop w _ H).
  destruct (surfaced o) as [v|e] eqn:S; cbn; [|discriminate].
  intro X. destruct (surfaced_ok o v S) as (r & -> & J & H4 & H1 & H5).
  exists r, v. auto 10.
Qed.

Lemma an_operation_returns_only_a_decoded_body_witness :
  answers (constructed ShegerPay.brand "sk_test_abc" (ok_with (VDict [])))
    (ok_with (VDict [])) /\
  exists r v,
    ok_with (VDict []) = Responded r /\ json r = Some v /\
    status_code r <> 400 /\ status_code r <> 401 /\ status_code r < 500 /\
    shegerpay_shape ShegerPay.GetUsage v = Ok (RValue (VDict [])).
Proof.
  assert (H : answers (constructed ShegerPay.brand "sk_test_abc" (ok_with (VDict [])))
                (ok_with (VDict []))) by (intro req; reflexivity).
  split; [exact H|].
  exact (an_operation_returns_only_a_decoded_body ShegerPay.GetUsage _ _
           (RValue (VDict [])) H eq_refl).
Defined.

(** X7.  What [verify] and [quick_verify] return is made of the response
    alone: whatever identifier, amount, provider and names the caller
    passed, the same answer gives the same result, and on a 2xx response
    whose body is a JSON object that result is the body's mapping; in
    particular [transaction_id] and [amount] of the result are the body's,
    not the caller's. *)
Theorem verification_result_is_the_response_alone
    (t t' : string) (a a' : number) (p m s : option string)
    (w : World) (o : Outcome) :
  answers w o ->
  outcome (Kyne.verify t a p m s) w = outcome (Kyne.quick_verify t' a') w /\
  outcome (ShegerPay.verify t a p m s) w = outcome (ShegerPay.quick_verify t' a') w /\
  outcome (Kyne.verify t a p m s) w = outcome (ShegerPay.verify t a p m s) w /\
  outcome (Kyne.verify t a p m s) w =
    and_then (surfaced o) VerificationResult.from_response.
Proof.
  intro H. unfold outcome.
  rewrite kyne_verify_run, kyne_quick_verify_run, shegerpay_verify_run,
    shegerpay_quick_verify_run. cbn [snd]. rewrite !H. repeat split.
Qed.

Lemma verification_result_is_the_response_alone_witness :
  answers (constructed Kyne.brand "sk_test_abc" (ok_with (VDict [ ("valid", VBool true) ])))
    (ok_with (VDict [ ("valid", VBool true) ])) /\
  outcome (Kyne.verify "FT24352648751234" (NInt 100) None None None)
    (constructed Kyne.brand "sk_test_abc" (ok_with (VDict [ ("valid", VBool true) ])))
  = outcome (Kyne.quick_verify "CKA1B2C3D4" (NInt 7))
      (constructed Kyne.brand "sk_test_abc" (ok_with (VDict [ ("valid", VBool true) ]))).
Proof.
  assert (H : answers
    (constructed Kyne.brand "sk_test_abc" (ok_with (VDict [ ("valid", VBool true) ])))
    (ok_with (VDict [ ("valid", VBool true) ]))) by (intro req; reflexivity).
  split; [exact H|].
  exact (proj1 (verification_result_is_the_response_alone
                  "FT24352648751234" "CKA1B2C3D4" (NInt 100) (NInt 7)
                  None None None _ _ H)).
Defined.

(** * Bodies of an unexpected shape *)

Lemma history_loop_all (items : list value) (acc : list Transaction.t) :
  history_loop items acc =
    if forallb is_dict items
    then Ok (acc ++ map (fun v => transaction_of (as_dict v)) items)%list
    else Raise AttributeError.
Proof.
  revert acc. induction items as [|tx items IH]; intro acc; cbn.
  - now rewrite app_nil_r.
  - destruct tx; cbn; try reflexivity.
    rewrite IH. destruct (forallb is_dict items); [|reflexivity].
    unfold transaction_of at 2. now rewrite <- app_assoc.
Qed.

Lemma passes_surfaced (r : Response) (v : value) :
  passes r -> json r = Some v -> surfaced (Responded r) = Ok v.
Proof. intros (H4 & H1 & H5) J. now apply surfaced_pass_through. Qed.

(** X8.  When the history endpoint answers with a JSON array,
    [get_history] of either client returns one Transaction per element if
    every element is a JSON object, and raises AttributeError, returning
    nothing of the elements before, as soon as one element is not; the
    empty array gives the empty list. *)
Theorem get_history_needs_an_array_of_objects
    (limit : Z) (w : World) (r : Response) (items : list value) :
  answers w (Responded r) ->
  passes r ->
  json r = Some (VList items) ->
  outcome (Kyne.get_history limit) w =
    (if forallb is_dict items
     then Ok (map (fun v => transaction_of (as_dict v)) items)
     else Raise AttributeError) /\
  outcome (ShegerPay.get_history limit) w =
    (if forallb is_dict items
     then Ok (map (fun v => transaction_of (as_dict v)) items)
     else Raise AttributeError).
Proof.
  intros H P J. unfold outcome.
  rewrite kyne_get_history_run, shegerpay_get_history_run. cbn [snd].
  rewrite !H, (passes_surfaced r _ P J). cbn.
  unfold history_of. cbn. rewrite history_loop_all. split; reflexivity.
Qed.

Lemma get_history_needs_an_array_of_objects_witness :
  answers
    (constructed Kyne.brand "sk_test_abc"
       (ok_with (VList [ VDict full_record; VStr "tx_2" ])))
    (Responded (mkResponse 200 (Some (VList [ VDict full_record; VStr "tx_2" ])))) /\
  passes (mkResponse 200 (Some (VList [ VDict full_record; VStr "tx_2" ]))) /\
  outcome (Kyne.get_history 50)
    (constructed Kyne.brand "sk_test_abc"
       (ok_with (VList [ VDict full_record; VStr "tx_2" ])))
    = Raise AttributeError.
Proof.
  assert (H : answers
    (constructed Kyne.brand "sk_test_abc"
       (ok_with (VList [ VDict full_record; VStr "tx_2" ])))
    (Responded (mkResponse 200 (Some (VList [ VDict full_record; VStr "tx_2" ])))))
    by (intro req; reflexivity).
  assert (P : passes (mkResponse 200 (Some (VList [ VDict full_record; VStr "tx_2" ]))))
    by (unfold passes; cbn; lia).
  split; [exact H|]. split; [exact P|].
  exact (proj1 (get_history_needs_an_array_of_objects 50 _ _ _ H P eq_refl)).
Defined.

(** X9.  When the history endpoint answers with something else than an
    array, [get_history] does not look for the records inside: a non-empty
    JSON object (an envelope around the array, say) or a non-empty JSON
    string raises AttributeError, null, a boolean or a number raises
    TypeError, and only the empty object and the empty string give the
    empty list. *)
Theorem get_history_of_a_body_that_is_no_array
    (limit : Z) (w : World) (r : Response) (v : value) :
  answers w (Responded r) ->
  passes r ->
  json r = Some v ->
  outcome (Kyne.get_history limit) w = outcome (ShegerPay.get_history limit) w /\
  match v with
  | VList _ => True
  | VDict [] | VStr EmptyString => outcome (Kyne.get_history limit) w = Ok []
  | VDict (_ :: _) | VStr (String _ _) =>
      outcome (Kyne.get_history limit) w = Raise AttributeError
  | VNone | VBool _ | VInt _ | VFloat _ _ =>
      outcome (Kyne.get_history limit) w = Raise TypeError
  end.
Proof.
  intros H P J. unfold outcome.
  rewrite kyne_get_history_run, shegerpay_get_history_run. cbn [snd].
  rewrite !H, (passes_surfaced r _ P J). split; [reflexivity|].
  destruct v as [| | | |[|c s]|l|[|[k x] d]]; try reflexivity; exact I.
Qed.

Lemma get_history_of_a_body_that_is_no_array_witness :
  answers
    (constructed Kyne.brand "sk_test_abc"
       (ok_with (VDict [ ("transactions", VList [ VDict full_record ]) ])))
    (Responded (mkResponse 200
       (Some (VDict [ ("transactions", VList [ VDict full_record ]) ])))) /\
  outcome (Kyne.get_history 50)
    (constructed Kyne.brand "sk_test_abc"
       (ok_with (VDict [ ("transactions", VList [ VDict full_record ]) ])))
    = Raise AttributeError.
Proof.
  assert (H : answers
    (constructed Kyne.brand "sk_test_abc"
       (ok_with (VDict [ ("transactions", VList [ VDict full_record ]) ])))
    (Responded (mkResponse 200
       (Some (VDict [ ("transactions", VList [ VDict full_record ]) ])))))
    by (intro req; reflexivity).
  assert (P : passes (mkResponse 200
       (Some (VDict [ ("transactions", VList [ VDict full_record ]) ]))))
    by (unfold passes; cbn; lia).
  split; [exact H|].
  exact (proj2 (get_history_of_a_body_that_is_no_array 50 _ _ _ H P eq_refl)).
Defined.

(** X10.  When the body of a response that passes is not a JSON object,
    [verify] and [quick_verify] of either client raise AttributeError: no
    VerificationResult is made of defaults. *)
Theorem verification_needs_an_object
    (t : string) (a : number) (p m s : option string)
    (w : World) (r : Response) (v : value) :
  answers w (Responded r) ->
  passes r ->
  json r = Some v ->
  is_dict v = false ->
  outcome (Kyne.verify t a p m s) w = Raise AttributeError /\
  outcome (Kyne.quick_verify t a) w = Raise AttributeError /\
  outcome (ShegerPay.verify t a p m s) w = Raise AttributeError /\
  outcome (ShegerPay.quick_verify t a) w = Raise AttributeError.
Proof.
  intros H P J D. unfold outcome.
  rewrite kyne_verify_run, kyne_quick_verify_run, shegerpay_verify_run,
    shegerpay_quick_verify_run. cbn [snd].
  rewrite !H, (passes_surfaced r _ P J).
  destruct v; try discriminate D; repeat split.
Qed.

Lemma verification_needs_an_object_witness :
  answers (constructed Kyne.brand "sk_test_abc" (ok_with (VList [])))
    (Responded (mkResponse 200 (Some (VList [])))) /\
  outcome (Kyne.verify "FT24352648751234" (NInt 100) None None None)
    (constructed Kyne.brand "sk_test_abc" (ok_with (VList [])))
    = Raise AttributeError.
Proof.
  assert (H : answers (constructed Kyne.brand "sk_test_abc" (ok_with (VList [])))
                (Responded (mkResponse 200 (Some (VList [])))))
    by (intro req; reflexivity).
  assert (P : passes (mkResponse 200 (Some (VList [])))) by (unfold passes; cbn; lia).
  split; [exact H|].
  exact (proj1 (verification_needs_an_object "FT24352648751234" (NInt 100)
                  None None None _ _ _ H P eq_refl eq_refl)).
Defined.

(** X11.  Every operation of [shegerpay.py] other than [verify],
    [quick_verify] and [get_history] returns on any decoded body of a
    response that passes, whatever its shape: the body as it is, except that
    [list_payment_links] returns the "links" entry of a JSON object, and the
    empty list when the object has none. *)
Theorem untyped_operations_return_any_body
    (sop : ShegerPay.Operation) (w : World) (r : Response) (v : value) :
  answers w (Responded r) ->
  passes r ->
  json r = Some v ->
  typed sop = false ->
  exists x,
    outcome (ShegerPay.run sop) w = Ok (RValue x) /\
    (sop <> ShegerPay.ListPaymentLinks -> x = v) /\
    (sop = ShegerPay.ListPaymentLinks ->
       (forall d, v = VDict d -> copied d "links" (VList []) x) /\
       (is_dict v = false -> x = v)).
Proof.
  intros H P J T.
  rewrite (shegerpay_outcome sop w _ H), (passes_surfaced r _ P J). cbn.
  destruct sop; try discriminate T; cbn;
    try (exists v; split; [reflexivity|]; split; [reflexivity|discriminate]).
  eexists. split; [reflexivity|]. split; [intro N; now contradiction N|].
  intros _. split.
  - intros d ->. apply get_default_copied.
  - destruct v; try reflexivity. discriminate.
Qed.

Lemma untyped_operations_return_any_body_witness :
  answers
    (constructed ShegerPay.brand "sk_test_abc" (ok_with (VDict [ ("count", VInt 0) ])))
    (Responded (mkResponse 200 (Some (VDict [ ("count", VInt 0) ])))) /\
  exists x,
    outcome (ShegerPay.run ShegerPay.ListPaymentLinks)
      (constructed ShegerPay.brand "sk_test_abc" (ok_with (VDict [ ("count", VInt 0) ])))
      = Ok (RValue x) /\
    (ShegerPay.ListPaymentLinks <> ShegerPay.ListPaymentLinks ->
       x = VDict [ ("count", VInt 0) ]) /\
    (ShegerPay.ListPaymentLinks = ShegerPay.ListPaymentLinks ->
       (forall d, VDict [ ("count", VInt 0) ] = VDict d -> copied d "links" (VList []) x) /\
       (is_dict (VDict [ ("count", VInt 0) ]) = false -> x = VDict [ ("count", VInt 0) ])).
Proof.
  assert (H : answers
    (constructed ShegerPay.brand "sk_test_abc" (ok_with (VDict [ ("count", VInt 0) ])))
    (Responded (mkResponse 200 (Some (VDict [ ("count", VInt 0) ])))))
    by (intro req; reflexivity).
  assert (P : passes (mkResponse 200 (Some (VDict [ ("count", VInt 0) ]))))
    by (unfold passes; cbn; lia).
  split; [exact H|].
  exact (untyped_operations_return_any_body ShegerPay.ListPaymentLinks _ _ _
           H P eq_refl eq_refl).
Defined.

(** * Payload shaping of the rich-resource operations *)





(** X13.  [setup_2fa] and [paypal_create_setup_token] pass the empty
    dictionary as payload: it is falsy, so their request is not given a JSON
    body: it goes out with the empty payload as form data, under the
    Content-Type application/json the operation has just set. *)
Theorem empty_payload_is_not_sent_as_json (w : World) :
  (exists req,
     sent (net (after ShegerPay.setup_2fa w)) = (sent (net w) ++ [req])%list /\
     req_url req = base_url (self w) ++ "/api/v1/two-factor/setup" /\
     get (req_headers req) "Content-Type" = VStr application_json /\
     req_body req = FormData (Some [])) /\
  (exists req,
     sent (net (after ShegerPay.paypal_create_setup_token w))
       = (sent (net w) ++ [req])%list /\
     req_url req = base_url (self w) ++ "/api/v1/paypal/vault/setup-token" /\
     get (req_headers req) "Content-Type" = VStr application_json /\
     req_body req = FormData (Some [])).
Proof.
  pose proof (content_type_set w application_json) as C.
  unfold content_type in C.
  split; eexists; unfold after, ShegerPay.setup_2fa,
    ShegerPay.paypal_create_setup_token, bind;
    change (set_header "Content-Type" application_json w)
      with (with_content_type w application_json, @Ok unit tt);
    cbn iota; rewrite shegerpay_request_run;
    (split; [destruct (surfaced _); reflexivity|]);
    (split; [reflexivity|]); (split; [exact C|]);
    unfold shegerpay_request_of; cbn [req_body ShegerPay.truthy_dict];
    now rewrite andb_false_r.
Qed.

Lemma lookup_set_if_str_other (d : dict) (k k' : string) (x : option string) :
  k' <> k -> lookup k' (ShegerPay.set_if_str d k x) = lookup k' d.
Proof.
  intro N. unfold ShegerPay.set_if_str.
  destruct (truthy_str x); [now apply lookup_setitem_other|reflexivity].
Qed.

(** X14.  An amount that is zero is dropped from a refund: [paypal_refund]
    and [create_refund] with amount 0 (or 0.0) do what they do with no
    amount at all, and the payload that goes out has no amount entry, which
    asks for a full refund. *)
Theorem zero_amount_is_sent_as_no_amount
    (capture_id currency transaction_id : string) (note reason : option string)
    (amount : number) (w : World) :
  truthy (of_number amount) = false ->
  ShegerPay.paypal_refund capture_id (Some amount) currency note w =
    ShegerPay.paypal_refund capture_id None currency note w /\
  ShegerPay.create_refund transaction_id (Some amount) reason w =
    ShegerPay.create_refund transaction_id None reason w /\
  (exists req d,
     sent (net (after (ShegerPay.paypal_refund capture_id (Some amount) currency note) w))
       = (sent (net w) ++ [req])%list /\
     payload_of (req_body req) = Some d /\
     lookup "capture_id" d = Some (VStr capture_id) /\
     lookup "amount" d = None) /\
  (exists req d,
     sent (net (after (ShegerPay.create_refund transaction_id (Some amount) reason) w))
       = (sent (net w) ++ [req])%list /\
     payload_of (req_body req) = Some d /\
     lookup "transaction_id" d = Some (VStr transaction_id) /\
     lookup "amount" d = None).
Proof.
  intro H. unfold ShegerPay.paypal_refund, ShegerPay.create_refund,
    ShegerPay.set_if_number. rewrite H.
  split; [reflexivity|]. split; [reflexivity|].
  split; do 2 eexists; unfold after, bind;
    change (set_header "Content-Type" application_json w)
      with (with_content_type w application_json, @Ok unit tt);
    cbn iota; rewrite shegerpay_request_run;
    (split; [destruct (surfaced _); reflexivity|]);
    (split; [apply shegerpay_request_payload|]);
    rewrite !lookup_set_if_str_other by discriminate; split; reflexivity.
Qed.

Lemma zero_amount_is_sent_as_no_amount_witness :
  truthy (of_number (NInt 0)) = false /\
  ShegerPay.paypal_refund "CAPTURE_ID" (Some (NInt 0)) "USD" None refusing_world =
    ShegerPay.paypal_refund "CAPTURE_ID" None "USD" None refusing_world.
Proof.
  split; [reflexivity|].
  exact (proj1 (zero_amount_is_sent_as_no_amount "CAPTURE_ID" "USD" "tx_1" None None
                  (NInt 0) refusing_world eq_refl)).
Defined.

Lemma lookup_app (d e : dict) (k : string) :
  lookup k (d ++ e)%list =
    match lookup k d with Some v => Some v | None => lookup k e end.
Proof.
  induction d as [|[k0 v0] d IH]; cbn; [reflexivity|].
  destruct (String.eqb k k0); [reflexivity|exact IH].
Qed.

Lemma setitem_fresh (d : dict) (k : string) (v : value) :
  lookup k d = None -> setitem d k v = (d ++ [(k, v)])%list.
Proof.
  induction d as [|[k0 v0] d IH]; cbn; [reflexivity|].
  destruct (String.eqb k k0); [discriminate|]. intro H. now rewrite IH.
Qed.

Lemma lookup_present (d : dict) (k : string) :
  In k (map fst d) -> lookup k d <> None.
Proof.
  induction d as [|[k0 v0] d IH]; cbn; [contradiction|].
  intros [->|I]; [now rewrite String.eqb_refl|].
  destruct (String.eqb k k0); [discriminate|now apply IH].
Qed.

(** Extras whose names are new and distinct go behind the entries there
    are, in their order. *)
Lemma update_fresh (extra d : dict) :
  NoDup (map fst extra) ->
  (forall k, In k (map fst extra) -> lookup k d = None) ->
  update d extra = (d ++ extra)%list.
Proof.
  unfold update. revert d. induction extra as [|[k v] extra IH]; intros d N F; cbn.
  - now rewrite app_nil_r.
  - inversion N as [|? ? Nk Ne]; subst.
    rewrite (setitem_fresh d k v) by (apply F; now left).
    rewrite IH; [now rewrite <- app_assoc|exact Ne|].
    intros k' I. rewrite lookup_app, (F k') by now right. cbn.
    destruct (String.eqb k' k) eqn:E; [|reflexivity].
    apply String.eqb_eq in E. subst. contradiction.
Qed.

(** X15.  [request_payout] sends its three named arguments first and then
    the caller's extra keyword arguments as they are, in their order: when
    the extras have distinct names, none of them amount, currency or method
    (as Python's call rules have it), the payload is the three entries
    followed by the extras, JSON-encoded, to POST /api/v1/payouts. *)
Theorem request_payout_appends_the_extras
    (amount : number) (currency method : string) (kwargs : dict) (w : World) :
  NoDup (map fst kwargs) ->
  lookup "amount" kwargs = None ->
  lookup "currency" kwargs = None ->
  lookup "method" kwargs = None ->
  exists req,
    sent (net (after (ShegerPay.request_payout amount currency method kwargs) w))
      = (sent (net w) ++ [req])%list /\
    req_method req = "POST" /\
    req_url req = base_url (self w) ++ "/api/v1/payouts" /\
    req_body req =
      JsonData ([ ("amount", of_number amount);
                  ("currency", VStr currency);
                  ("method", VStr method) ] ++ kwargs)%list.
Proof.
  intros N Ha Hc Hm.
  assert (U : update [ ("amount", of_number amount); ("currency", VStr currency);
                       ("method", VStr method) ] kwargs
              = ([ ("amount", of_number amount); ("currency", VStr currency);
                   ("method", VStr method) ] ++ kwargs)%list).
  { apply update_fresh; [exact N|]. intros k I. cbn.
    pose proof (lookup_present kwargs k I) as P.
    destruct (String.eqb k "amount") eqn:E1;
      [apply String.eqb_eq in E1; subst; contradiction|].
    destruct (String.eqb k "currency") eqn:E2;
      [apply String.eqb_eq in E2; subst; contradiction|].
    destruct (String.eqb k "method") eqn:E3;
      [apply String.eqb_eq in E3; subst; contradiction|].
    reflexivity. }
  pose proof (content_type_set w application_json) as C. unfold content_type in C.
  eexists. unfold after, ShegerPay.request_payout, bind.
  change (set_header "Content-Type" application_json w)
    with (with_content_type w application_json, @Ok unit tt).
  cbn iota. rewrite shegerpay_request_run, U.
  split; [destruct (surfaced _); reflexivity|].
  split; [reflexivity|]. split; [reflexivity|].
  unfold shegerpay_request_of. cbn [req_body]. rewrite C. reflexivity.
Qed.

Lemma request_payout_appends_the_extras_witness :
  NoDup (map fst [ ("account_number", VStr "1000123456789") ]) /\
  exists req,
    sent (net (after (ShegerPay.request_payout (NInt 500) "ETB" "bank_transfer"
                        [ ("account_number", VStr "1000123456789") ])
                 refusing_world))
      = (sent (net refusing_world) ++ [req])%list /\
    req_method req = "POST" /\
    req_url req = base_url (self refusing_world) ++ "/api/v1/payouts" /\
    req_body req =
      JsonData [ ("amount", VInt 500); ("currency", VStr "ETB");
                 ("method", VStr "bank_transfer");
                 ("account_number", VStr "1000123456789") ].
Proof.
  assert (N : NoDup (map fst [ ("account_number", VStr "1000123456789") ]))
    by (constructor; [intros []|constructor]).
  split; [exact N|].
  exact (request_payout_appends_the_extras (NInt 500) "ETB" "bank_transfer"
           [ ("account_number", VStr "1000123456789") ] refusing_world
           N eq_refl eq_refl eq_refl).
Defined.

(** * The base URL *)

Lemma append_assoc (a b c : string) : (a ++ b) ++ c = a ++ (b ++ c).
Proof. induction a as [|x a IH]; cbn; [reflexivity|now rewrite IH]. Qed.

Lemma append_empty_r (a : string) : a ++ "" = a.
Proof. induction a as [|x a IH]; cbn; [reflexivity|now rewrite IH]. Qed.

Lemma rev_string_acc (s acc : string) :
  rev_string s acc = rev_string s "" ++ acc.
Proof.
  revert acc. induction s as [|c s IH]; intro acc; cbn; [reflexivity|].
  rewrite (IH (String c acc)), (IH (String c "")), append_assoc. reflexivity.
Qed.

Lemma rev_string_append (a b : string) :
  rev_string (a ++ b) "" = rev_string b "" ++ rev_string a "".
Proof.
  induction a as [|c a IH]; cbn.
  - now rewrite append_empty_r.
  - rewrite (rev_string_acc (a ++ b)), (rev_string_acc a), IH, append_assoc.
    reflexivity.
Qed.

Lemma rev_string_involutive (s : string) : rev_string (rev_string s "") "" = s.
Proof.
  induction s as [|c s IH]; cbn; [reflexivity|].
  rewrite (rev_string_acc s), rev_string_append, IH. reflexivity.
Qed.

Lemma slashes_snoc (n : nat) : slashes n ++ "/" = String "/" (slashes n).
Proof. induction n as [|n IH]; cbn; [reflexivity|now rewrite IH]. Qed.

Lemma rev_string_slashes (n : nat) : rev_string (slashes n) "" = slashes n.
Proof.
  induction n as [|n IH]; cbn; [reflexivity|].
  rewrite rev_string_acc, IH. apply slashes_snoc.
Qed.

Lemma lstrip_slash_cons (c : ascii) (s : string) :
  lstrip_slash (String c s) =
    if Ascii.eqb c "/" then lstrip_slash s else String c s.
Proof. destruct c as [[] [] [] [] [] [] [] []]; reflexivity. Qed.

(** What [lstrip_slash] removes is slashes, and it leaves none in front. *)
Lemma lstrip_slash_spec (t : string) :
  exists n, t = slashes n ++ lstrip_slash t /\
            match lstrip_slash t with
            | EmptyString => True
            | String c _ => c <> "/"%char
            end.
Proof.
  induction t as [|c t (n & E & H)].
  - exists O. split; [reflexivity|exact I].
  - rewrite lstrip_slash_cons. destruct (Ascii.eqb c "/") eqn:C.
    + apply Ascii.eqb_eq in C. subst c. exists (S n). cbn [slashes append].
      split; [now rewrite <- E|exact H].
    + apply Ascii.eqb_neq in C. exists O. split; [reflexivity|exact C].
Qed.

Lemma last_char_snoc (s : string) (c : ascii) : last_char (s ++ String c "") = Some c.
Proof.
  induction s as [|x s IH]; cbn; [reflexivity|].
  rewrite IH. destruct (s ++ String c "") eqn:E; [|reflexivity].
  destruct s; discriminate E.
Qed.

(** [rstrip_slash] takes trailing slashes away, all of them and nothing
    else. *)
Lemma rstrip_slash_spec (s : string) :
  exists n, s = rstrip_slash s ++ slashes n /\
            last_char (rstrip_slash s) <> Some "/"%char.
Proof.
  unfold rstrip_slash.
  destruct (lstrip_slash_spec (rev_string s "")) as (n & E & H).
  exists n. split.
  - rewrite <- (rev_string_involutive s) at 1. rewrite E at 1.
    now rewrite rev_string_append, rev_string_slashes.
  - destruct (lstrip_slash (rev_string s "")) as [|c t]; cbn; [discriminate|].
    rewrite rev_string_acc, last_char_snoc. intro X. inversion X. contradiction.
Qed.

(** X16.  The base URL of a constructed client is the URL given (the
    brand's default when none or the empty string is given) without its
    trailing slashes: it never ends in a slash, so a request URL, the base
    URL followed by a path that begins with one, has a single slash at the
    joint. *)
Theorem base_url_has_no_trailing_slash (brand : Brand) (key : string)
    (base : option string) (seconds : Z) (n : Net) (c : Client) :
  snd (__init__ brand key base seconds n) = Ok c ->
  last_char (base_url c) <> Some "/"%char /\
  exists k,
    match base with
    | Some (String _ _ as given) => given
    | _ => DEFAULT_BASE_URL brand
    end = base_url c ++ slashes k.
Proof.
  intro I. apply init_client in I. subst c. cbn [base_url].
  destruct (rstrip_slash_spec (or_default base (DEFAULT_BASE_URL brand)))
    as (k & E & L).
  split; [exact L|]. exists k. rewrite <- E.
  destruct base as [[|x b]|]; reflexivity.
Qed.

Lemma base_url_has_no_trailing_slash_witness :
  snd (__init__ Kyne.brand "sk_test_abc" (Some "https://sandbox.kyne.com//") 30
         (mkNet [] (fun _ _ => ok_with VNone)))
    = Ok {| api_key := "sk_test_abc";
            base_url := "https://sandbox.kyne.com";
            timeout := 30;
            mode := "test";
            session_headers :=
              [ ("User-Agent", VStr "Kyne-Python-SDK/1.0");
                ("Accept-Encoding", VStr "gzip, deflate");
                ("Accept", VStr "*/*");
                ("Connection", VStr "keep-alive");
                ("Authorization", VStr "Bearer sk_test_abc");
                ("Content-Type", VStr form_urlencoded) ] |} /\
  last_char "https://sandbox.kyne.com" <> Some "/"%char.
Proof.
  split; [reflexivity|].
  exact (proj1 (base_url_has_no_trailing_slash Kyne.brand "sk_test_abc"
                  (Some "https://sandbox.kyne.com//") 30
                  (mkNet [] (fun _ _ => ok_with VNone)) _ eq_refl)).
Defined.

(** * The module-level [verify] *)

Lemma init_accepts (brand : Brand) (key : string) (base : option string)
    (seconds : Z) (n : Net) :
  negb (String.eqb key "") && (startswith key "sk_test_" || startswith key "sk_live_")
    = true ->
  exists c, __init__ brand key base seconds n = (n, Ok c).
Proof.
  unfold __init__, ret. cbn [truthy]. intro H.
  apply andb_prop in H. destruct H as [H1 H2]. rewrite H1, H2.
  eexists. reflexivity.
Qed.

(** X17.  The module-level [verify] of either file builds a client for the
    one call.  With a key the constructor refuses it raises
    AuthenticationError and sends nothing.  With a key it accepts it sends
    exactly one request, the POST of [verify] to the brand's default host
    under the default timeout of 30 seconds and the key as bearer, and ends
    as the client's [verify] does. *)
Theorem module_verify_is_one_guarded_call
    (key t : string) (a : number) (p m s : option string) (n : Net) :
  if negb (String.eqb key "") && (startswith key "sk_test_" || startswith key "sk_live_")
  then
    (exists c req,
       Kyne.__init__ key None 30 n = (n, Ok c) /\
       fst (kyne.verify key t a p m s n) = mkNet (sent n ++ [req]) (remote n) /\
       snd (kyne.verify key t a p m s n) = outcome (Kyne.verify t a p m s) (mkWorld c n) /\
       req_method req = "POST" /\
       req_url req = "https://api.kyne.com/api/v1/verify" /\
       req_timeout req = 30 /\
       lookup "Authorization" (req_headers req) = Some (VStr ("Bearer " ++ key))) /\
    (exists c req,
       ShegerPay.__init__ key None 30 n = (n, Ok c) /\
       fst (shegerpay.verify key t a p m s n) = mkNet (sent n ++ [req]) (remote n) /\
       snd (shegerpay.verify key t a p m s n)
         = outcome (ShegerPay.verify t a p m s) (mkWorld c n) /\
       req_method req = "POST" /\
       req_url req = "https://api.shegerpay.com/api/v1/verify" /\
       req_timeout req = 30 /\
       lookup "Authorization" (req_headers req) = Some (VStr ("Bearer " ++ key)))
  else
    exists message,
      kyne.verify key t a p m s n =
        (n, Raise (SdkError AuthenticationError message None)) /\
      shegerpay.verify key t a p m s n =
        (n, Raise (SdkError AuthenticationError message None)).
Proof.
  destruct (negb (String.eqb key "") &&
            (startswith key "sk_test_" || startswith key "sk_live_")) eqn:V.
  - split.
    + destruct (init_accepts Kyne.brand key None 30 n V) as (c & I).
      pose proof (init_client Kyne.brand key None 30 n c) as C.
      rewrite I in C. specialize (C eq_refl).
      exists c. eexists. split; [exact I|].
      unfold kyne.verify, bind, with_client, outcome. unfold Kyne.__init__. rewrite I.
      rewrite kyne_verify_run. cbn [fst snd net].
      split; [reflexivity|]. split; [reflexivity|].
      subst c. cbn. repeat split.
    + destruct (init_accepts ShegerPay.brand key None 30 n V) as (c & I).
      pose proof (init_client ShegerPay.brand key None 30 n c) as C.
      rewrite I in C. specialize (C eq_refl).
      exists c. eexists. split; [exact I|].
      unfold shegerpay.verify, bind, with_client, outcome. unfold ShegerPay.__init__.
      rewrite I. rewrite shegerpay_verify_run. cbn [fst snd net].
      split; [reflexivity|]. split; [reflexivity|].
      subst c. cbn. repeat split.
  - unfold kyne.verify, shegerpay.verify, bind, Kyne.__init__, ShegerPay.__init__.
    unfold __init__, raise. cbn [truthy].
    destruct (negb (String.eqb key "")); cbn [negb andb] in *.
    + rewrite V. cbn. eexists. split; reflexivity.
    + eexists. split; reflexivity.
Qed.

(** * The routing of the operations *)

Lemma shegerpay_route (op : ShegerPay.Operation) :
  exists method path data params,
    (forall w,
       ShegerPay.run op w =
         shaped (shegerpay_shape op)
           (if sets_json op then json_call method path data params
            else ShegerPay._request method path data params) w) /\
    well_routed op method path data params.
Proof.
  destruct op; cbn [ShegerPay.run shegerpay_shape].
  4: { unfold ShegerPay.get_crypto_prices. destruct (truthy_str symbol);
       do 4 eexists; (split; [intro w; reflexivity|]);
       unfold well_routed; cbn [sets_json];
       repeat split; auto; try discriminate; try (intro N; now contradiction N);
       eexists; reflexivity. }
  4-45: try (do 4 eexists; (split; [intro w; cbn [sets_json]; reflexivity|]);
             unfold well_routed; cbn [sets_json];
             repeat split; auto; try discriminate;
             try (intro N; now contradiction N);
             eexists; reflexivity).
  - exists "POST", "/api/v1/verify",
      (Some (verify_payload ShegerPay.brand transaction_id amount provider
               merchant_name sub_provider)), None.
    split; [cbn [sets_json]; typed_round_trip shegerpay_verify_run shegerpay_request_run|].
    unfold well_routed; cbn [sets_json];
      repeat split; auto; try discriminate; try (intro N; now contradiction N).
    eexists; reflexivity.
  - exists "POST", "/api/v1/quick-verify",
      (Some [ ("transaction_id", VStr transaction_id); ("amount", of_number amount) ]),
      None.
    split; [cbn [sets_json];
            typed_round_trip shegerpay_quick_verify_run shegerpay_request_run|].
    unfold well_routed; cbn [sets_json];
      repeat split; auto; try discriminate; try (intro N; now contradiction N).
    eexists; reflexivity.
  - exists "GET", "/api/v1/history", None, None.
    split; [cbn [sets_json];
            typed_round_trip shegerpay_get_history_run shegerpay_request_run|].
    unfold well_routed; cbn [sets_json];
      repeat split; auto; try discriminate; try (intro N; now contradiction N).
    eexists; reflexivity.
  - exists "GET", "/api/v1/payment-links/", None, None.
    split.
    + intro w. cbn [sets_json].
      unfold ShegerPay.returning, ShegerPay.list_payment_links, shaped, bind.
      destruct (ShegerPay._request _ _ _ _ w) as [w' [v|e]]; reflexivity.
    + unfold well_routed; cbn [sets_json];
        repeat split; auto; try discriminate; try (intro N; now contradiction N).
      eexists; reflexivity.
Qed.

(** X18.  Every operation of [shegerpay.py] calls an endpoint under
    /api/v1/ of the client's base URL with GET, POST or DELETE.  Only a POST
    carries a payload, only a GET is given [params], and the operations of
    the rich-resource family are all POSTs without [params]. *)
Theorem every_request_is_well_routed (sop : ShegerPay.Operation) (w : World) :
  exists req rest,
    sent (net (after (ShegerPay.run sop) w)) = (sent (net w) ++ [req])%list /\
    (req_method req = "GET" \/ req_method req = "POST" \/ req_method req = "DELETE") /\
    req_url req = base_url (self w) ++ "/api/v1/" ++ rest /\
    (req_method req <> "POST" -> req_body req = FormData None) /\
    (req_params req <> None -> req_method req = "GET") /\
    (sets_json sop = true -> req_method req = "POST" /\ req_params req = None).
Proof.
  destruct (shegerpay_route sop)
    as (method & path & data & params & E & M & (rest & P) & J & D & Q).
  exists (shegerpay_request_of
            (if sets_json sop then with_content_type w application_json else w)
            method path data params), rest.
  split.
  - unfold after. rewrite E. destruct (sets_json sop).
    + rewrite shaped_json_call. cbn [fst]. destruct (surfaced _); reflexivity.
    + rewrite shaped_shegerpay_request. reflexivity.
  - unfold shegerpay_request_of. cbn [req_method req_url req_body req_params].
    split; [exact M|]. split; [destruct (sets_json sop); now rewrite P|].
    split; [|split; [exact Q|]].
    + intro N. rewrite (D N). cbn. now rewrite andb_false_r.
    + intro T. destruct (J T) as (Jm & _ & Jp). now split.
Qed.

(** * More on [verify] and on the two clients *)

Lemma truthy_str_some (x : option string) (v : string) :
  x = Some v -> v <> "" -> truthy_str x = true /\ str_of x = v.
Proof.
  intros -> N. cbn. split; [|reflexivity].
  destruct (String.eqb v "") eqn:E; [|reflexivity].
  apply String.eqb_eq in E. contradiction.
Qed.

Lemma verify_payload_entries (brand : Brand) (t : string) (a : number)
    (p m s : option string) :
  let data := verify_payload brand t a p m s in
  map fst data =
    ([ "provider"; "transaction_id"; "amount"; "merchant_name" ]
     ++ (if truthy_str s then [ "sub_provider" ] else []))%list /\
  lookup "transaction_id" data = Some (VStr t) /\
  lookup "amount" data = Some (of_number a) /\
  (forall v, p = Some v -> v <> "" -> lookup "provider" data = Some (VStr v)) /\
  (forall v, m = Some v -> v <> "" -> lookup "merchant_name" data = Some (VStr v)).
Proof.
  unfold verify_payload. cbn.
  split; [destruct (truthy_str s); reflexivity|].
  split; [reflexivity|]. split; [reflexivity|]. split.
  - intros v E N. destruct (truthy_str_some p v E N) as [T S]. now rewrite T, S.
  - intros v E N. destruct (truthy_str_some m v E N) as [T S]. now rewrite T, S.
Qed.

(** X19.  [verify] of either client POSTs to /api/v1/verify a payload whose
    entries are, in this order, provider, transaction_id, amount,
    merchant_name and, when one is given, sub_provider.  The identifier and
    the amount go out as given; a provider the caller names goes out as
    named, whatever the identifier begins with; a merchant name the caller
    gives goes out as given. *)
Theorem verify_sends_what_the_caller_gave
    (t : string) (a : number) (p m s : option string) (w : World) :
  (exists req data,
     after (Kyne.verify t a p m s) w = having_sent w req /\
     req_method req = "POST" /\
     req_url req = base_url (self w) ++ "/api/v1/verify" /\
     payload_of (req_body req) = Some data /\
     map fst data =
       ([ "provider"; "transaction_id"; "amount"; "merchant_name" ]
        ++ (if truthy_str s then [ "sub_provider" ] else []))%list /\
     lookup "transaction_id" data = Some (VStr t) /\
     lookup "amount" data = Some (of_number a) /\
     (forall v, p = Some v -> v <> "" -> lookup "provider" data = Some (VStr v)) /\
     (forall v, m = Some v -> v <> "" -> lookup "merchant_name" data = Some (VStr v))) /\
  (exists req data,
     after (ShegerPay.verify t a p m s) w = having_sent w req /\
     req_method req = "POST" /\
     req_url req = base_url (self w) ++ "/api/v1/verify" /\
     payload_of (req_body req) = Some data /\
     map fst data =
       ([ "provider"; "transaction_id"; "amount"; "merchant_name" ]
        ++ (if truthy_str s then [ "sub_provider" ] else []))%list /\
     lookup "transaction_id" data = Some (VStr t) /\
     lookup "amount" data = Some (of_number a) /\
     (forall v, p = Some v -> v <> "" -> lookup "provider" data = Some (VStr v)) /\
     (forall v, m = Some v -> v <> "" -> lookup "merchant_name" data = Some (VStr v))).
Proof.
  split; do 2 eexists; unfold after.
  - rewrite kyne_verify_run. cbn [fst].
    split; [reflexivity|]. split; [reflexivity|]. split; [reflexivity|].
    split; [reflexivity|]. apply verify_payload_entries.
  - rewrite shegerpay_verify_run. cbn [fst].
    split; [reflexivity|]. split; [reflexivity|]. split; [reflexivity|].
    split; [apply shegerpay_request_payload|]. apply verify_payload_entries.
Qed.

(** X20.  Once the session's Content-Type of a [shegerpay.py] client is
    application/json (a rich-resource call that raised leaves it so), every
    operation outside the rich-resource family goes out under that header,
    with its payload JSON-encoded when it has one, and leaves the header as
    it found it. *)
Theorem a_json_header_stays_with_the_simple_operations
    (sop : ShegerPay.Operation) (w : World) :
  content_type w = VStr application_json ->
  sets_json sop = false ->
  content_type (after (ShegerPay.run sop) w) = VStr application_json /\
  exists req,
    sent (net (after (ShegerPay.run sop) w)) = (sent (net w) ++ [req])%list /\
    get (req_headers req) "Content-Type" = VStr application_json /\
    (forall kv d, payload_of (req_body req) = Some (kv :: d) ->
                  req_body req = JsonData (kv :: d)).
Proof.
  intros C J.
  destruct (shegerpay_run_effect sop w) as (method & path & data & params & E).
  cbn zeta in E. rewrite J in E. unfold after. rewrite E. cbn [fst]. clear E.
  assert (A : forall x, (match surfaced x with
                         | Ok _ | Raise _ =>
                             having_sent w (shegerpay_request_of w method path data params)
                         end)
                        = having_sent w (shegerpay_request_of w method path data params))
    by (intro x; destruct (surfaced x); reflexivity).
  rewrite A. split; [exact C|].
  eexists. split; [reflexivity|]. split; [exact C|].
  intros kv d. unfold shegerpay_request_of. cbn [req_body].
  fold (content_type w). rewrite C. cbn.
  destruct data as [[|kv' d']|]; cbn; intro P; inversion P. reflexivity.
Qed.

Lemma a_json_header_stays_with_the_simple_operations_witness :
  content_type after_refusal = VStr application_json /\
  content_type
    (after (ShegerPay.run (ShegerPay.QuickVerify "FT24352648751234" (NInt 100)))
       after_refusal)
    = VStr application_json.
Proof.
  split; [reflexivity|].
  exact (proj1 (a_json_header_stays_with_the_simple_operations
                  (ShegerPay.QuickVerify "FT24352648751234" (NInt 100))
                  after_refusal eq_refl eq_refl)).
Defined.

(** X21.  The two clients are one: while the session's Content-Type is not
    application/json, [_request], [quick_verify] and [get_history] of
    [shegerpay.py] do exactly what those of [kyne.py] do, and so does
    [verify] when the caller gives a merchant name (the default name is the
    one thing the brands differ in). *)
Theorem the_two_clients_agree
    (method path : string) (data params : option dict)
    (t : string) (a : number) (p m s : option string) (limit : Z) (w : World) :
  ShegerPay.is_str (content_type w) application_json = false ->
  ShegerPay._request method path data params w = Kyne._request method path data params w /\
  ShegerPay.quick_verify t a w = Kyne.quick_verify t a w /\
  ShegerPay.get_history limit w = Kyne.get_history limit w /\
  (truthy_str m = true ->
     ShegerPay.verify t a p m s w = Kyne.verify t a p m s w).
Proof.
  intro C.
  assert (R : forall me pa da pr,
             shegerpay_request_of w me pa da pr = kyne_request_of w me pa da pr).
  { intros. unfold shegerpay_request_of, kyne_request_of.
    fold (content_type w). now rewrite C. }
  split; [now rewrite shegerpay_request_run, kyne_request_run, R|].
  split; [now rewrite shegerpay_quick_verify_run, kyne_quick_verify_run, R|].
  split; [now rewrite shegerpay_get_history_run, kyne_get_history_run, R|].
  intro T. rewrite shegerpay_verify_run, kyne_verify_run, R.
  unfold verify_payload. now rewrite T.
Qed.

Lemma the_two_clients_agree_witness :
  ShegerPay.is_str
    (content_type (constructed Kyne.brand "sk_test_abc" (ok_with (VList []))))
    application_json = false /\
  ShegerPay.get_history 50 (constructed Kyne.brand "sk_test_abc" (ok_with (VList [])))
    = Kyne.get_history 50 (constructed Kyne.brand "sk_test_abc" (ok_with (VList []))).
Proof.
  split; [reflexivity|].
  exact (proj1 (proj2 (proj2
    (the_two_clients_agree "GET" "/" None None "" (NInt 0) None None None 50
       (constructed Kyne.brand "sk_test_abc" (ok_with (VList []))) eq_refl)))).
Defined.
